(** * The AniList title catalog client (app/services/title/anilist)

    A shallow embedding of [AnilistApi] (anilist_api.py) and of the two
    pydantic schemas it builds (schemas/title.py), with the properties the
    specification states about them.

    Conventions of the embedding:
    - a decoded JSON document is a [json] value, the Python object
      [json.loads] produces: [None], [bool], [int], [float], [str],
      [list] and [dict] with string keys;
    - a Python exception is a constructor of [exn]; an expression that
      may raise has type [result A];
    - a method of the client runs in the monad [M]: it reads and writes
      the [World] (the client object, the session objects it may share
      with other holders, and a log of the effects) and either returns
      or raises;
    - the network is a function [upstream] from the request posted to
      what comes back; every statement holds for every such function. *)

From Stdlib Require Import ZArith String Ascii List Floats Lia.
From stdpp Require Import base option list gmap strings.

Local Open Scope string_scope.
Local Open Scope Z_scope.

(** ** Python values *)

(** What [await response.json()] evaluates to. *)
#[warnings="-register-all"]
Inductive json : Type :=
| JNull
| JBool (b : bool)
| JInt (n : Z)
| JFloat (x : float)
| JStr (s : string)
| JList (l : list json)
| JObj (m : gmap string json).

(** A subscript: [d["data"]] or [d[0]]. *)
Inductive py_key : Type :=
| KeyStr (s : string)
| KeyInt (i : Z).

(** The exceptions the client's code paths can end in.  The first two
    are the client's own (app.services.title.anilist.exceptions); the
    others are Python's, pydantic's and aiohttp's. *)
Inductive exn : Type :=
| TitleNotFound (msg : string)
| ServerError (body : string)
| KeyError (k : py_key)
| TypeError
| IndexError
| AttributeError
| ValidationError
| ResponseDecodeError
| ClientConnectionError
| RuntimeError.

(** The two errors a caller is meant to tell apart. *)
Definition is_typed_error (e : exn) : bool :=
  match e with
  | TitleNotFound _ | ServerError _ => true
  | _ => false
  end.

Inductive result (A : Type) : Type :=
| Ok (a : A)
| Raise (e : exn).
Arguments Ok {A} a.
Arguments Raise {A} e.

#[global] Instance result_ret : MRet result := fun A a => Ok a.
#[global] Instance result_bind : MBind result := fun A B f r =>
  match r with
  | Ok a => f a
  | Raise e => Raise e
  end.

(** [bool(v)], as [if not data] evaluates it. *)
Definition truthy (v : json) : bool :=
  match v with
  | JNull => false
  | JBool b => b
  | JInt n => negb (n =? 0)
  | JFloat x => negb (PrimFloat.eqb x 0%float)
  | JStr s => negb (String.eqb s "")
  | JList l => match l with [] => false | _ :: _ => true end
  | JObj m => negb (bool_decide (m = ∅))
  end.

(** [v[k]] for a string [k]. *)
Definition getitem (v : json) (k : string) : result json :=
  match v with
  | JObj m =>
      match m !! k with
      | Some x => Ok x
      | None => Raise (KeyError (KeyStr k))
      end
  | _ => Raise TypeError
  end.

(** [v[0]].  A [dict] decoded from JSON has string keys only, so the
    integer key is never present. *)
Definition getitem0 (v : json) : result json :=
  match v with
  | JList (x :: _) => Ok x
  | JStr (String c _) => Ok (JStr (String c ""))
  | JObj _ => Raise (KeyError (KeyInt 0))
  | JList [] | JStr "" => Raise IndexError
  | _ => Raise TypeError
  end.

(** The items [for edge in v] visits, in order.  Iterating a [dict]
    visits its keys and iterating a [str] its characters. *)
Definition iter (v : json) : result (list json) :=
  match v with
  | JList l => Ok l
  | JObj m => Ok (JStr <$> (map_to_list m).*1)
  | JStr s => Ok ((fun c => JStr (String c "")) <$> list_ascii_of_string s)
  | _ => Raise TypeError
  end.

(** [template % value] for a template with one [%s] and a [str] value. *)
Fixpoint py_format (template value : string) : string :=
  match template with
  | "" => ""
  | String "%" (String "s" rest) => value ++ rest
  | String c rest => String c (py_format rest value)
  end.

(** ** The HTTP layer (aiohttp) *)

(** The body [session.post(url=..., json=...)] sends. *)
Record Request : Type := {
  url : string;
  query : string;
  variables : gmap string json;
}.

(** A response that has come back: its status line, its body as text
    ([await response.text()]) and the outcome of decoding the body
    ([await response.json()]), [None] when decoding raises. *)
Record ClientResponse : Type := {
  status : Z;
  text : string;
  body_json : option json;
}.

(** What a post ends in: a response, or a failure of the transport
    (refused connection, timeout). *)
Inductive PostOutcome : Type :=
| Responded (response : ClientResponse)
| TransportFailure.

(** A [ClientSession] object. *)
Record ClientSession : Type := {
  closed : bool;
  timeout_total : Z;
}.

(** The effects on the outside, in the order they happen. *)
Inductive event : Type :=
| SessionOpened (r : nat)
| SessionClosed (r : nat)
| Posted (r : nat) (req : Request).

(** The client object: its only attribute is a reference to a session
    object, or [None]. *)
Record AnilistApi : Type := {
  _session : option nat;
}.

(** The client, the session objects allocated so far (a reference is an
    index), and the log.  A session object may be held, and closed, by
    others than the client. *)
Record World : Type := {
  self : AnilistApi;
  sessions : list ClientSession;
  log : list event;
}.

(** [AnilistApi()] in a world with no session object. *)
Definition initial_world : World :=
  {| self := {| _session := None |}; sessions := []; log := [] |}.

(** Every reference the client holds points to a session object. *)
Definition wf (w : World) : Prop :=
  match _session (self w) with
  | Some r => (r < length (sessions w))%nat
  | None => True
  end.

(** ** The monad of the client's methods *)

Definition M (A : Type) : Type := World -> result A * World.

#[global] Instance M_ret : MRet M := fun A a w => (Ok a, w).
#[global] Instance M_bind : MBind M := fun A B f m w =>
  match m w with
  | (Ok a, w') => f a w'
  | (Raise e, w') => (Raise e, w')
  end.

Definition raise {A : Type} (e : exn) : M A := fun w => (Raise e, w).

Definition lift {A : Type} (r : result A) : M A := fun w => (r, w).

Definition emit (e : event) : M unit := fun w =>
  (Ok tt, {| self := self w; sessions := sessions w; log := log w ++ [e] |}).

(** ** The schemas (schemas/title.py) *)

(** What pydantic's field validation does with a decoded JSON value.
    How far it coerces values of another type depends on the library's
    version, so the two scalar validators are left open; all that is
    used is that a value already of the declared type passes
    unchanged. *)
Class Pydantic : Type := {
  int_validator : json -> option Z;
  str_validator : json -> option string;
  int_validator_int : forall n, int_validator (JInt n) = Some n;
  str_validator_str : forall s, str_validator (JStr s) = Some s;
}.

Section Fields.
Context `{!Pydantic}.

(** A field declared [Optional[str]]. *)
Definition optional_str_validator (v : json) : option (option string) :=
  match v with
  | JNull => Some None
  | _ => Some <$> str_validator v
  end.

(** A field declared [list[str]]. *)
Definition list_str_validator (v : json) : option (list string) :=
  match v with
  | JList l => mapM str_validator l
  | _ => None
  end.
End Fields.

Module TitlePreview.
Record t : Type := {
  id : Z;
  english_name : option string;
  romaji_name : option string;
  native_name : option string;
  title_format : string;
  url : string;
  banner_image_url : option string;
  description : option string;
  genres : list string;
}.

(** [TitlePreview(id=..., ...)]: every field is validated, and the
    object is built when all of them pass. *)
Definition new `{!Pydantic}
    (id english_name romaji_name native_name title_format url
       banner_image_url description genres : json) : result t :=
  match
    a ← int_validator id;
    b ← optional_str_validator english_name;
    c ← optional_str_validator romaji_name;
    d ← optional_str_validator native_name;
    e ← str_validator title_format;
    f ← str_validator url;
    g ← optional_str_validator banner_image_url;
    h ← optional_str_validator description;
    i ← list_str_validator genres;
    Some {| id := a; english_name := b; romaji_name := c;
            native_name := d; title_format := e; url := f;
            banner_image_url := g; description := h; genres := i |}
  with
  | Some p => Ok p
  | None => Raise ValidationError
  end.
End TitlePreview.

Module TitleRelation.
Record t : Type := {
  id : Z;
  english_name : option string;
  romaji_name : option string;
  native_name : option string;
  title_format : string;
  url : string;
  banner_image_url : option string;
  description : option string;
  genres : list string;
  relation_type : string;
}.

(** [TitleRelation(id=..., ...)]. *)
Definition new `{!Pydantic}
    (id english_name romaji_name native_name title_format url
       banner_image_url description genres relation_type : json)
    : result t :=
  match
    a ← int_validator id;
    b ← optional_str_validator english_name;
    c ← optional_str_validator romaji_name;
    d ← optional_str_validator native_name;
    e ← str_validator title_format;
    f ← str_validator url;
    g ← optional_str_validator banner_image_url;
    h ← optional_str_validator description;
    i ← list_str_validator genres;
    j ← str_validator relation_type;
    Some {| id := a; english_name := b; romaji_name := c;
            native_name := d; title_format := e; url := f;
            banner_image_url := g; description := h; genres := i;
            relation_type := j |}
  with
  | Some p => Ok p
  | None => Raise ValidationError
  end.
End TitleRelation.

(** Modelled from the spec: the [TitleFormat] enumeration
    (app.services.title.anilist.dto) is not among the sources.  Each of
    its members carries, as its [value], the fragment that is spliced
    into the text of the query. *)
Record TitleFormat : Type := {
  value : string;
}.

(** ** The client (anilist_api.py) *)

Definition source_url : string := "https://graphql.anilist.co".

(** The query text of [title_preview_by_name]. *)
Definition query_by_name : string :=
"
        query ($search: String) {
            Media(search: $search, %s) {
                id
                title {
                    english
                    romaji
                    native
                }
                format
                siteUrl
                bannerImage
                description
                genres
            }
        }
        ".

(** The query text of [title_preview_by_id]. *)
Definition query_by_id : string :=
"
        query ($id: Int) {
            Media(id: $id, %s) {
                title {
                    english
                    romaji
                    native
                }
                format
                siteUrl
                bannerImage
                description
                genres
            }
        }
        ".

(** The query text of [title_preview_page_by_name]. *)
Definition query_page_by_name : string :=
"
        query ($page: Int, $search: String) {
            Page(page: $page, perPage: 1) {
                media(search: $search, %s) {
                    id
                    title {
                        english
                        romaji
                        native
                    }
                    format
                    siteUrl
                    bannerImage
                    description
                    genres
                }
            }
        }
        ".

(** The query text of [title_relations_by_id]. *)
Definition query_relations_by_id : string :=
"
        query ($id: Int) {
            Media(id: $id) {
                relations {
                    edges {
                        node {
                            id
                            title {
                                english
                                romaji
                                native
                            }
                            format
                            siteUrl
                            bannerImage
                            description
                            genres
                        }
                        relationType
                    }
                }
            }
        }
        ".


(** ** Concrete collaborators, to run the client on examples *)

(** Validation without coercion: a value passes when it already has the
    declared type. *)
Definition pydantic_strict : Pydantic :=
  {| int_validator := fun v => match v with JInt n => Some n | _ => None end;
     str_validator := fun v => match v with JStr s => Some s | _ => None end;
     int_validator_int := fun n => eq_refl;
     str_validator_str := fun s => eq_refl |}.

(** [int(x)] for a float: the integer part, towards zero; infinities
    and NaN raise. *)
Definition int_of_float (x : float) : option Z :=
  match Prim2SF x with
  | S754_zero _ => Some 0
  | S754_finite s m e =>
      let a := if 0 <=? e then Z.pos m * 2 ^ e else Z.pos m / 2 ^ (- e) in
      Some (if s then - a else a)
  | S754_infinity _ | S754_nan => None
  end.

Definition digit (c : ascii) : option Z :=
  let n := Z.of_nat (nat_of_ascii c) in
  if (48 <=? n) && (n <=? 57) then Some (n - 48) else None.

Fixpoint digits (acc : Z) (s : string) : option Z :=
  match s with
  | "" => Some acc
  | String c rest =>
      match digit c with
      | Some d => digits (10 * acc + d) rest
      | None => None
      end
  end.

(** [int(s)] for a text that is a decimal numeral with an optional
    sign; any other text is taken to raise. *)
Definition int_of_text (s : string) : option Z :=
  match s with
  | "" => None
  | String "-" (String c rest) => Z.opp <$> digits 0 (String c rest)
  | String "+" (String c rest) => digits 0 (String c rest)
  | _ => digits 0 s
  end.

(** Validation that coerces an [int] field as pydantic 1 does: a value
    that is not an integer goes through [int(v)].  Text fields are
    validated as in [pydantic_strict]. *)
Definition pydantic_int_coercing : Pydantic :=
  {| int_validator := fun v =>
       match v with
       | JInt n => Some n
       | JBool b => Some (if b then 1 else 0)
       | JFloat x => int_of_float x
       | JStr s => int_of_text s
       | _ => None
       end;
     str_validator := fun v => match v with JStr s => Some s | _ => None end;
     int_validator_int := fun n => eq_refl;
     str_validator_str := fun s => eq_refl |}.

(** Modelled from the spec: HTML escaping of a text, the characters
    that are significant in markup replaced by their entities. *)
Fixpoint escape_html_tags (s : string) : string :=
  match s with
  | "" => ""
  | String c rest =>
      (if Ascii.eqb c "<" then "&lt;"
       else if Ascii.eqb c ">" then "&gt;"
       else if Ascii.eqb c "&" then "&amp;"
       else String c "") ++ escape_html_tags rest
  end.

(** Modelled from the spec: [escape_html_tags_or_none]
    (app.text_utils.html_formatting is not among the sources) escapes a
    text and passes an absent one through. *)
Definition escape_html_tags_or_none_model (v : json) : result json :=
  match v with
  | JNull => Ok JNull
  | JStr s => Ok (JStr (escape_html_tags s))
  | _ => Raise TypeError
  end.

(** An endpoint that answers every request with the same response. *)
Definition always (response : ClientResponse) : Request -> PostOutcome :=
  fun _ => Responded response.

(** A [Media] record as the endpoint sends it. *)
Definition media_json
    (id : Z) (english : json) (description : json) : json :=
  JObj {[ "id" := JInt id;
          "title" := JObj {[ "english" := english;
                             "romaji" := JStr "Romaji";
                             "native" := JNull ]};
          "format" := JStr "MANGA";
          "siteUrl" := JStr "https://anilist.co/manga/1";
          "bannerImage" := JNull;
          "description" := description;
          "genres" := JList [JStr "Action"; JStr "Drama"] ]}.

(** A [Media] record whose [id] is any value. *)
Definition media_json_with_id (id : json) : json :=
  JObj {[ "id" := id;
          "title" := JObj {[ "english" := JStr "Berserk";
                             "romaji" := JStr "Romaji";
                             "native" := JNull ]};
          "format" := JStr "MANGA";
          "siteUrl" := JStr "https://anilist.co/manga/1";
          "bannerImage" := JNull;
          "description" := JNull;
          "genres" := JList [JStr "Action"; JStr "Drama"] ]}.

Definition edge_json (node : json) (relation_type : string) : json :=
  JObj {[ "node" := node; "relationType" := JStr relation_type ]}.

(** The body of an answer to a lookup of one title. *)
Definition media_body (media : json) : json :=
  JObj {[ "data" := JObj {[ "Media" := media ]} ]}.

(** The body of an answer to a paged search. *)
Definition page_body (media : json) : json :=
  JObj {[ "data" := JObj {[ "Page" := JObj {[ "media" := media ]} ]} ]}.

(** The body of an answer to a lookup of relations. *)
Definition relations_body (edges : list json) : json :=
  JObj {[ "data" :=
    JObj {[ "Media" :=
      JObj {[ "relations" := JObj {[ "edges" := JList edges ]} ]} ]} ]}.

Definition response_of (code : Z) (body : json) : ClientResponse :=
  {| status := code; text := "(body)"; body_json := Some body |}.

Definition ok_response (body : json) : ClientResponse :=
  response_of 200 body.

Definition unavailable : ClientResponse :=
  {| status := 503; text := "Service Unavailable"; body_json := None |}.

Definition missing : ClientResponse :=
  {| status := 404; text := "Not Found"; body_json := None |}.

Definition manga : TitleFormat := {| value := "type: MANGA" |}.

(** What the lookups make of [media_json id english description]. *)
Definition sample_preview
    (id : Z) (english description : option string) : TitlePreview.t :=
  {| TitlePreview.id := id;
     TitlePreview.english_name := english;
     TitlePreview.romaji_name := Some "Romaji";
     TitlePreview.native_name := None;
     TitlePreview.title_format := "MANGA";
     TitlePreview.url := "https://anilist.co/manga/1";
     TitlePreview.banner_image_url := None;
     TitlePreview.description := description;
     TitlePreview.genres := ["Action"; "Drama"] |}.

Definition sample_relation
    (id : Z) (english description : option string) (relation_type : string)
    : TitleRelation.t :=
  {| TitleRelation.id := id;
     TitleRelation.english_name := english;
     TitleRelation.romaji_name := Some "Romaji";
     TitleRelation.native_name := None;
     TitleRelation.title_format := "MANGA";
     TitleRelation.url := "https://anilist.co/manga/1";
     TitleRelation.banner_image_url := None;
     TitleRelation.description := description;
     TitleRelation.genres := ["Action"; "Drama"];
     TitleRelation.relation_type := relation_type |}.

(** A world in which the client holds a session that is open. *)
Definition world_with_open_session : World :=
  {| self := {| _session := Some 0%nat |};
     sessions := [{| closed := false; timeout_total := 60 |}];
     log := [SessionOpened 0] |}.

(** The same once another holder of the session has closed it. *)
Definition world_with_closed_session : World :=
  {| self := {| _session := Some 0%nat |};
     sessions := [{| closed := true; timeout_total := 60 |}];
     log := [SessionOpened 0; SessionClosed 0] |}.

(** A [Media] record with every field of the type the schema of the
    endpoint declares, and the JSON the endpoint sends for it. *)
Module Media.
Record t : Type := {
  id : Z;
  english : option string;
  romaji : option string;
  native : option string;
  format : string;
  siteUrl : string;
  bannerImage : option string;
  description : option string;
  genres : list string;
}.

Definition optional (o : option string) : json :=
  match o with
  | Some s => JStr s
  | None => JNull
  end.

Definition to_json (m : t) : json :=
  JObj {[ "id" := JInt (id m);
          "title" := JObj {[ "english" := optional (english m);
                             "romaji" := optional (romaji m);
                             "native" := optional (native m) ]};
          "format" := JStr (format m);
          "siteUrl" := JStr (siteUrl m);
          "bannerImage" := optional (bannerImage m);
          "description" := optional (description m);
          "genres" := JList (JStr <$> genres m) ]}.

(** The preview of the record under the id [i], its names and its
    description put through [esc]. *)
Definition preview (esc : string -> string) (i : Z) (m : t)
    : TitlePreview.t :=
  {| TitlePreview.id := i;
     TitlePreview.english_name := esc <$> english m;
     TitlePreview.romaji_name := esc <$> romaji m;
     TitlePreview.native_name := esc <$> native m;
     TitlePreview.title_format := format m;
     TitlePreview.url := siteUrl m;
     TitlePreview.banner_image_url := bannerImage m;
     TitlePreview.description := esc <$> description m;
     TitlePreview.genres := genres m |}.

(** The relation of the record: its names put through [esc], its
    description as it is. *)
Definition relation (esc : string -> string) (m : t) (relation_type : string)
    : TitleRelation.t :=
  {| TitleRelation.id := id m;
     TitleRelation.english_name := esc <$> english m;
     TitleRelation.romaji_name := esc <$> romaji m;
     TitleRelation.native_name := esc <$> native m;
     TitleRelation.title_format := format m;
     TitleRelation.url := siteUrl m;
     TitleRelation.banner_image_url := bannerImage m;
     TitleRelation.description := description m;
     TitleRelation.genres := genres m;
     TitleRelation.relation_type := relation_type |}.
End Media.

Definition berserk : Media.t :=
  {| Media.id := 30002;
     Media.english := Some "Berserk <Deluxe>";
     Media.romaji := Some "Berserk";
     Media.native := None;
     Media.format := "MANGA";
     Media.siteUrl := "https://anilist.co/manga/30002?a=1&b=2";
     Media.bannerImage := None;
     Media.description := Some "Guts & <i>Griffith</i>";
     Media.genres := ["Action"; "Drama"] |}.

(** ** The greeting (handlers/introduction.py) *)

Module Introduction.

(** [s.replace(c, by)] for a pattern of one character. *)
Fixpoint replace (c : ascii) (by_ : string) (s : string) : string :=
  match s with
  | "" => ""
  | String x rest =>
      (if Ascii.eqb x c then by_ else String x "") ++ replace c by_ rest
  end.

(** [html.escape(s, quote=False)] of Python's library, which aiogram's
    [html_decoration.quote] returns. *)
Definition quote (s : string) : string :=
  replace ">" "&gt;" (replace "<" "&lt;" (replace "&" "&amp;" s)).

Record User : Type := {
  first_name : string;
}.

(** An incoming message; [from_user] is absent on some kinds of
    message. *)
Record Message : Type := {
  from_user : option User;
}.

(** The arguments of a call of [m.answer]. *)
Record Answer : Type := {
  text : string;
  parse_mode : string;
  disable_web_page_preview : bool;
  disable_notification : bool;
}.

Definition nl : string := String "010" "".

(** The handler; the state is the list of the answers sent so far. *)
Definition start_cmd (m : Message) (sent_answers : list Answer)
    : result unit * list Answer :=
  match from_user m with
  | None => (Raise AttributeError, sent_answers)
  | Some user =>
      let first_name := quote (first_name user) in
      let text :=
        "Hello, " ++ first_name ++ "!" ++ nl ++ nl
        ++ "Send me manga's name for searching manga by this name."
        ++ nl ++ nl
        ++ "This bot is open source and don't save users' info about users!"
      in
      (Ok tt,
       (sent_answers
        ++ [{| text := text;
               parse_mode := "HTML";
               disable_web_page_preview := true;
               disable_notification := false |}])%list)
  end.

(** The characters of a text. *)
Definition chars (s : string) : list ascii := list_ascii_of_string s.

End Introduction.

Section Client.
Context `{!Pydantic}.

(** [escape_html_tags_or_none] (app.text_utils.html_formatting) is not
    among the sources: the client is stated for any such function from
    a decoded value to a value or an exception. *)
Variable escape_html_tags_or_none : json -> result json.

(** What the endpoint answers to a request. *)
Variable upstream : Request -> PostOutcome.

(** *** Session objects *)

(** [ClientSession(timeout=ClientTimeout(total=60))]: a new object, open. *)
Definition get_new_session : M nat := fun w =>
  let r := length (sessions w) in
  (Ok r,
   {| self := self w;
      sessions := sessions w ++ [{| closed := false; timeout_total := 60 |}];
      log := log w ++ [SessionOpened r] |}).

(** [self._session] *)
Definition read_session : M (option nat) := fun w =>
  (Ok (_session (self w)), w).

(** [self._session = r] *)
Definition write_session (r : nat) : M unit := fun w =>
  (Ok tt,
   {| self := {| _session := Some r |};
      sessions := sessions w; log := log w |}).

(** [r.closed].  The client never holds a reference to no object
    ([wf]); the answer given for one is of no consequence. *)
Definition ClientSession_closed (r : nat) : M bool := fun w =>
  (Ok (match sessions w !! r with Some s => closed s | None => true end), w).

Definition mark_closed (s : ClientSession) : ClientSession :=
  {| closed := true; timeout_total := timeout_total s |}.

(** [await r.close()] *)
Definition ClientSession_close (r : nat) : M unit := fun w =>
  (Ok tt,
   {| self := self w;
      sessions := alter mark_closed r (sessions w);
      log := log w ++ [SessionClosed r] |}).

(** [await r.post(url=..., json=...)]: a closed session refuses to
    send; an open one sends, and the endpoint or the transport answers. *)
Definition ClientSession_post (r : nat) (req : Request) : M ClientResponse :=
  c ← ClientSession_closed r;
  if c : bool then raise RuntimeError
  else
    _ ← emit (Posted r req);
    match upstream req with
    | Responded response => mret response
    | TransportFailure => raise ClientConnectionError
    end.

(** [await response.json()] *)
Definition ClientResponse_json (response : ClientResponse) : M json :=
  match body_json response with
  | Some v => mret v
  | None => raise ResponseDecodeError
  end.

(** The property [session]. *)
Definition session : M nat :=
  let renew : M nat :=
    r ← get_new_session;
    _ ← write_session r;
    mret r in
  cur ← read_session;
  match cur with
  | None => renew
  | Some r =>
      c ← ClientSession_closed r;
      if c : bool then renew else mret r
  end.

Definition close : M unit :=
  cur ← read_session;
  match cur with
  | None => mret tt
  | Some r =>
      c ← ClientSession_closed r;
      if c : bool then mret tt else ClientSession_close r
  end.

Definition send_request_to_source
    (query : string) (variables : gmap string json) : M ClientResponse :=
  s ← session;
  response ← ClientSession_post s
    {| url := source_url; query := query; variables := variables |};
  if 500 <=? status response
  then raise (ServerError (text response))
  else mret response.

(** [title_format.value], where [title_format] may be [None]. *)
Definition format_value (title_format : option TitleFormat) : M string :=
  match title_format with
  | Some f => mret (value f)
  | None => raise AttributeError
  end.

(** *** The four queries *)

Definition title_preview_by_name
    (name : string) (title_format : option TitleFormat)
    : M TitlePreview.t :=
  fmt ← format_value title_format;
  let query := py_format query_by_name fmt in
  let variables : gmap string json := {[ "search" := JStr name ]} in
  response ← send_request_to_source query variables;
  if status response =? 404
  then raise (TitleNotFound "Title with this name not found!")
  else
  result ← ClientResponse_json response;
  data ← lift (getitem result "data" ≫= fun x => getitem x "Media");
  title ← lift (getitem data "title");
  lift (
    a ← getitem data "id";
    b ← getitem title "english" ≫= escape_html_tags_or_none;
    c ← getitem title "romaji" ≫= escape_html_tags_or_none;
    d ← getitem title "native" ≫= escape_html_tags_or_none;
    e ← getitem data "format";
    f ← getitem data "siteUrl";
    g ← getitem data "bannerImage";
    h ← getitem data "description" ≫= escape_html_tags_or_none;
    i ← getitem data "genres";
    TitlePreview.new a b c d e f g h i).

Definition title_preview_by_id
    (title_id : Z) (title_format : option TitleFormat)
    : M TitlePreview.t :=
  fmt ← format_value title_format;
  let query := py_format query_by_id fmt in
  let variables : gmap string json := {[ "id" := JInt title_id ]} in
  response ← send_request_to_source query variables;
  if status response =? 404
  then raise (TitleNotFound "Title with this name not found!")
  else
  result ← ClientResponse_json response;
  data ← lift (getitem result "data" ≫= fun x => getitem x "Media");
  title ← lift (getitem data "title");
  lift (
    a ← mret (JInt title_id);
    b ← getitem title "english" ≫= escape_html_tags_or_none;
    c ← getitem title "romaji" ≫= escape_html_tags_or_none;
    d ← getitem title "native" ≫= escape_html_tags_or_none;
    e ← getitem data "format";
    f ← getitem data "siteUrl";
    g ← getitem data "bannerImage";
    h ← getitem data "description" ≫= escape_html_tags_or_none;
    i ← getitem data "genres";
    TitlePreview.new a b c d e f g h i).

Definition title_preview_page_by_name
    (page : Z) (name : string) (title_format : option TitleFormat)
    : M TitlePreview.t :=
  fmt ← format_value title_format;
  let query := py_format query_page_by_name fmt in
  let variables : gmap string json :=
    {[ "page" := JInt page; "search" := JStr name ]} in
  response ← send_request_to_source query variables;
  result ← ClientResponse_json response;
  data ← lift (getitem result "data" ≫= fun x => getitem x "Page"
                 ≫= fun x => getitem x "media");
  if negb (truthy data)
  then raise (TitleNotFound "Title not found!")
  else
  data ← lift (getitem0 data);
  title ← lift (getitem data "title");
  lift (
    a ← getitem data "id";
    b ← getitem title "english" ≫= escape_html_tags_or_none;
    c ← getitem title "romaji" ≫= escape_html_tags_or_none;
    d ← getitem title "native" ≫= escape_html_tags_or_none;
    e ← getitem data "format";
    f ← getitem data "siteUrl";
    g ← getitem data "bannerImage";
    h ← getitem data "description" ≫= escape_html_tags_or_none;
    i ← getitem data "genres";
    TitlePreview.new a b c d e f g h i).

(** The body of the loop of [title_relations_by_id]: the record built
    from one edge. *)
Definition relation_of_edge (edge : json) : result TitleRelation.t :=
  node ← getitem edge "node";
  title ← getitem node "title";
  a ← getitem node "id";
  b ← getitem title "english" ≫= escape_html_tags_or_none;
  c ← getitem title "romaji" ≫= escape_html_tags_or_none;
  d ← getitem title "native" ≫= escape_html_tags_or_none;
  e ← getitem node "format";
  f ← getitem node "siteUrl";
  g ← getitem node "bannerImage";
  h ← getitem node "description";
  i ← getitem node "genres";
  j ← getitem edge "relationType";
  TitleRelation.new a b c d e f g h i j.

Definition title_relations_by_id (id : Z) : M (list TitleRelation.t) :=
  let query := query_relations_by_id in
  let variables : gmap string json := {[ "id" := JInt id ]} in
  response ← send_request_to_source query variables;
  if status response =? 404
  then raise (TitleNotFound "Title with this id not found!")
  else
  result ← ClientResponse_json response;
  data ← lift (getitem result "data" ≫= fun x => getitem x "Media");
  relations ← lift (getitem data "relations");
  edges ← lift (getitem relations "edges");
  items ← lift (iter edges);
  lift (mapM relation_of_edge items).

(** *** What the statements below are phrased with *)

(** The [TitlePreview] the lookups build from a [Media] record of the
    response; [id_arg] is the expression given for the id. *)
Definition preview_with
    (id_arg : result json) (data : json) : result TitlePreview.t :=
  title ← getitem data "title";
  a ← id_arg;
  b ← getitem title "english" ≫= escape_html_tags_or_none;
  c ← getitem title "romaji" ≫= escape_html_tags_or_none;
  d ← getitem title "native" ≫= escape_html_tags_or_none;
  e ← getitem data "format";
  f ← getitem data "siteUrl";
  g ← getitem data "bannerImage";
  h ← getitem data "description" ≫= escape_html_tags_or_none;
  i ← getitem data "genres";
  TitlePreview.new a b c d e f g h i.

(** The same with the id read from the record. *)
Definition preview_of_media (data : json) : result TitlePreview.t :=
  preview_with (getitem data "id") data.

(** [await response.json()] as a value. *)
Definition decoded (response : ClientResponse) : result json :=
  match body_json response with
  | Some v => Ok v
  | None => Raise ResponseDecodeError
  end.

(** The field [field] of a built object is the escaped and validated
    form of the value the expression [raw] reads from the response. *)
Definition escaped_from (raw : result json) (field : option string) : Prop :=
  exists v e,
    raw = Ok v /\
    escape_html_tags_or_none v = Ok e /\
    optional_str_validator e = Some field.

(** The field is the validated form of the value as it is in the
    response. *)
Definition verbatim_from (raw : result json) (field : option string) : Prop :=
  exists v, raw = Ok v /\ optional_str_validator v = Some field.

(** The field [field] of a built object is what the validator makes of
    the value the expression [raw] reads from the response. *)
Definition validated_from {A : Type}
    (validator : json -> option A) (raw : result json) (field : A) : Prop :=
  exists v, raw = Ok v /\ validator v = Some field.

(** The preview [p] is built from the record [data]: each of its fields
    comes from the field of the record the client reads for it, the
    names and the description through the escaping helper. *)
Definition built_from (data : json) (p : TitlePreview.t) : Prop :=
  exists title,
    getitem data "title" = Ok title /\
    validated_from int_validator (getitem data "id") (TitlePreview.id p) /\
    escaped_from (getitem title "english") (TitlePreview.english_name p) /\
    escaped_from (getitem title "romaji") (TitlePreview.romaji_name p) /\
    escaped_from (getitem title "native") (TitlePreview.native_name p) /\
    validated_from str_validator (getitem data "format")
      (TitlePreview.title_format p) /\
    validated_from str_validator (getitem data "siteUrl")
      (TitlePreview.url p) /\
    validated_from optional_str_validator (getitem data "bannerImage")
      (TitlePreview.banner_image_url p) /\
    escaped_from (getitem data "description") (TitlePreview.description p) /\
    validated_from list_str_validator (getitem data "genres")
      (TitlePreview.genres p).

(** An expression that, when it raises, raises none of the client's two
    errors. *)
Definition untyped {A : Type} (r : result A) : Prop :=
  forall e, r = Raise e -> is_typed_error e = false.

(** The world once a new session object has been created and stored
    in the client. *)
Definition renewed (w : World) : World :=
  {| self := {| _session := Some (length (sessions w)) |};
     sessions := sessions w ++ [{| closed := false; timeout_total := 60 |}];
     log := log w ++ [SessionOpened (length (sessions w))] |}.

(** What [send_request_to_source] makes of the answer to a post. *)
Definition checked (o : PostOutcome) : result ClientResponse :=
  match o with
  | Responded response =>
      if 500 <=? status response
      then Raise (ServerError (text response))
      else Ok response
  | TransportFailure => Raise ClientConnectionError
  end.

(** The world once [req] has been posted from [w]. *)
Definition sent (req : Request) (w : World) : World :=
  match session w with
  | (Ok r, w1) => snd (emit (Posted r req) w1)
  | (Raise _, w1) => w1
  end.

(** [x["data"]["Media"]] and the like. *)
Definition getpath (v : json) (path : list string) : result json :=
  foldl (fun r k => r ≫= fun x => getitem x k) (Ok v) path.

(** The request of each query. *)

Definition request_by_name (name : string) (f : TitleFormat) : Request :=
  {| url := source_url;
     query := py_format query_by_name (value f);
     variables := {[ "search" := JStr name ]} |}.

Definition request_by_id (title_id : Z) (f : TitleFormat) : Request :=
  {| url := source_url;
     query := py_format query_by_id (value f);
     variables := {[ "id" := JInt title_id ]} |}.

Definition request_page_by_name
    (page : Z) (name : string) (f : TitleFormat) : Request :=
  {| url := source_url;
     query := py_format query_page_by_name (value f);
     variables := {[ "page" := JInt page; "search" := JStr name ]} |}.

Definition request_relations_by_id (id : Z) : Request :=
  {| url := source_url;
     query := query_relations_by_id;
     variables := {[ "id" := JInt id ]} |}.

(** How many times a session object was closed, according to the log. *)
Definition is_close (e : event) : bool :=
  match e with
  | SessionClosed _ => true
  | _ => false
  end.

Definition close_count (l : list event) : nat :=
  length (List.filter is_close l).

(** What can happen to the session between two queries: the client
    accesses it, the client closes it, or another holder of a session
    object closes that object. *)
Inductive action : Type :=
| Access
| Close
| ClosedByOther (r : nat).

Definition step (w : World) (a : action) : World :=
  match a with
  | Access => snd (session w)
  | Close => snd (close w)
  | ClosedByOther r => snd (ClientSession_close r w)
  end.

(** The world after a sequence of actions on a new client. *)
Definition after (acts : list action) : World :=
  foldl step initial_world acts.

(** A computation that neither reads nor writes the world. *)
Definition stateless {A : Type} (m : M A) : Prop :=
  exists r, forall w, m w = (r, w).

(** A call on the client, or a close of a session object by another of
    its holders. *)
Inductive call : Type :=
| ByName (name : string) (title_format : option TitleFormat)
| ById (title_id : Z) (title_format : option TitleFormat)
| PageByName (page : Z) (name : string) (title_format : option TitleFormat)
| RelationsById (id : Z)
| CloseClient
| OtherCloses (r : nat).

Definition exec (w : World) (c : call) : World :=
  match c with
  | ByName name tf => snd (title_preview_by_name name tf w)
  | ById title_id tf => snd (title_preview_by_id title_id tf w)
  | PageByName page name tf => snd (title_preview_page_by_name page name tf w)
  | RelationsById id => snd (title_relations_by_id id w)
  | CloseClient => snd (close w)
  | OtherCloses r => snd (ClientSession_close r w)
  end.

(** The world after a sequence of calls on a new client. *)
Definition history (calls : list call) : World :=
  foldl exec initial_world calls.

(** Whether the call gets as far as posting. *)
Definition sends (c : call) : bool :=
  match c with
  | ByName _ (Some _) | ById _ (Some _) | PageByName _ _ (Some _)
  | RelationsById _ => true
  | _ => false
  end.

Definition is_post (e : event) : bool :=
  match e with
  | Posted _ _ => true
  | _ => false
  end.

Definition post_count (l : list event) : nat :=
  length (List.filter is_post l).

Definition is_open_event (e : event) : bool :=
  match e with
  | SessionOpened _ => true
  | _ => false
  end.

Definition opened_count (l : list event) : nat :=
  length (List.filter is_open_event l).

(** The client's reference points to a session object, no session
    object but the one the client holds is open, and every session
    object has the timeout the client gives. *)
Definition tidy (w : World) : Prop :=
  wf w /\
  (forall r s, sessions w !! r = Some s -> closed s = false ->
               _session (self w) = Some r) /\
  (forall r s, sessions w !! r = Some s -> timeout_total s = 60).


(** ** Reasoning about the monads *)

Ltac unfold_M :=
  unfold mbind, M_bind, mret, M_ret, raise, lift, emit in *.

Lemma result_bind_Ok {A B : Type} (r : result A) (f : A -> result B) b :
  r ≫= f = Ok b -> exists a, r = Ok a /\ f a = Ok b.
Proof.
  destruct r as [a|e]; intros Heq; [exists a; auto | discriminate].
Qed.

Lemma mapM_result_Ok {A B : Type} (f : A -> result B) (l : list A) k :
  mapM f l = Ok k -> Forall2 (fun x y => f x = Ok y) l k.
Proof.
  revert k. induction l as [|x l IH]; intros k Hk.
  - injection Hk as <-. constructor.
  - cbn in Hk. apply result_bind_Ok in Hk as (y & Hy & Hk).
    apply result_bind_Ok in Hk as (k' & Hk' & Hk).
    injection Hk as <-. constructor; auto.
Qed.

Lemma mapM_result_complete {A B : Type} (f : A -> result B) (l : list A) k :
  Forall2 (fun x y => f x = Ok y) l k -> mapM f l = Ok k.
Proof.
  induction 1 as [|x y l k Hxy _ IH]; [reflexivity|].
  cbn. rewrite Hxy. cbn. rewrite IH. reflexivity.
Qed.

(** ** The session *)

Lemma session_fresh w :
  _session (self w) = None ->
  session w = (Ok (length (sessions w)), renewed w).
Proof.
  intros Hnone. unfold session, read_session.
  unfold_M. rewrite Hnone. reflexivity.
Qed.

Lemma session_reuse w r s :
  _session (self w) = Some r ->
  sessions w !! r = Some s ->
  closed s = false ->
  session w = (Ok r, w).
Proof.
  intros Hr Hs Hopen. unfold session, read_session, ClientSession_closed.
  unfold_M. rewrite Hr, Hs, Hopen. reflexivity.
Qed.

Lemma session_stale w r s :
  _session (self w) = Some r ->
  sessions w !! r = Some s ->
  closed s = true ->
  session w = (Ok (length (sessions w)), renewed w).
Proof.
  intros Hr Hs Hclosed. unfold session, read_session, ClientSession_closed.
  unfold_M. rewrite Hr, Hs, Hclosed. reflexivity.
Qed.

Lemma renewed_open w :
  sessions (renewed w) !! length (sessions w)
  = Some {| closed := false; timeout_total := 60 |}.
Proof.
  cbn. rewrite lookup_app_r by lia. rewrite Nat.sub_diag. reflexivity.
Qed.

(** Whatever the world, an access yields a session that is stored in the
    client and open. *)
Lemma session_open w :
  exists r w' s,
    session w = (Ok r, w') /\
    _session (self w') = Some r /\
    sessions w' !! r = Some s /\
    closed s = false.
Proof.
  destruct (_session (self w)) as [r|] eqn:Hr.
  - destruct (sessions w !! r) as [s|] eqn:Hs.
    + destruct (closed s) eqn:Hc.
      * eexists _, _, _. split; [eapply session_stale; eauto|].
        split; [reflexivity|]. split; [apply renewed_open | reflexivity].
      * exists r, w, s. split; [eapply session_reuse; eauto|]. auto.
    + eexists _, _, _. split.
      * unfold session, read_session, ClientSession_closed.
        unfold_M. rewrite Hr, Hs. reflexivity.
      * split; [reflexivity|]. split; [apply renewed_open | reflexivity].
  - eexists _, _, _. split; [apply session_fresh; auto|].
    split; [reflexivity|]. split; [apply renewed_open | reflexivity].
Qed.

Lemma wf_session w : wf (snd (session w)).
Proof.
  destruct (session_open w) as (r & w' & s & -> & Hr & Hs & _).
  unfold wf. cbn. rewrite Hr. eapply lookup_lt_Some; eauto.
Qed.

Lemma wf_initial : wf initial_world.
Proof. exact I. Qed.

Lemma wf_closed_by w r : wf w -> wf (snd (ClientSession_close r w)).
Proof.
  unfold wf. cbn. destruct (_session (self w)); [|auto].
  rewrite length_alter. auto.
Qed.

Lemma wf_close w : wf w -> wf (snd (close w)).
Proof.
  intros Hwf. unfold close, read_session, ClientSession_closed.
  unfold_M. destruct (_session (self w)) as [r|]; [|exact Hwf].
  destruct (sessions w !! r) as [s|]; [|exact Hwf].
  destruct (closed s); [exact Hwf|]. apply wf_closed_by. exact Hwf.
Qed.

Lemma wf_after acts : wf (after acts).
Proof.
  unfold after. induction acts as [|a acts IH] using rev_ind.
  - exact wf_initial.
  - rewrite foldl_app. cbn. destruct a; cbn.
    + apply wf_session.
    + apply wf_close. exact IH.
    + apply wf_closed_by. exact IH.
Qed.

(** What an access does, by the state of the client. *)
Lemma session_by_state w :
  wf w ->
  match _session (self w) with
  | None => session w = (Ok (length (sessions w)), renewed w)
  | Some r =>
      exists s,
        sessions w !! r = Some s /\
        session w = if closed s
                    then (Ok (length (sessions w)), renewed w)
                    else (Ok r, w)
  end.
Proof.
  unfold wf. destruct (_session (self w)) as [r|] eqn:Hr.
  - intros Hlt. destruct (lookup_lt_is_Some_2 _ _ Hlt) as [s Hs].
    exists s. split; [exact Hs|]. destruct (closed s) eqn:Hc.
    + eapply session_stale; eauto.
    + eapply session_reuse; eauto.
  - intros _. apply session_fresh. exact Hr.
Qed.

(** ** Sending *)

Lemma send_request_to_source_run q v w :
  let req := {| url := source_url; query := q; variables := v |} in
  send_request_to_source q v w = (checked (upstream req), sent req w).
Proof.
  intros req. unfold send_request_to_source, sent.
  destruct (session_open w) as (r & w' & s & Hrun & _ & Hs & Hopen).
  unfold mbind at 1. unfold M_bind. rewrite Hrun.
  unfold ClientSession_post, ClientSession_closed.
  unfold_M. rewrite Hs, Hopen. fold req. cbn.
  unfold checked. destruct (upstream req) as [response|]; [|reflexivity].
  destruct (500 <=? status response); reflexivity.
Qed.

Arguments py_format : simpl never.

(** Each query posts its request first: up to the answer, its run is
    that of [send_request_to_source]. *)
Ltac run_send :=
  unfold format_value;
  unfold mbind at 1; unfold M_bind at 1; unfold mret at 1; unfold M_ret at 1;
  cbv zeta;
  unfold mbind at 1; unfold M_bind at 1;
  rewrite send_request_to_source_run.

(** ** Status codes *)

(** C3: a response with a status of 500 or more makes each of the four
    queries raise [ServerError] with the text of the body; nothing is
    returned and [TitleNotFound] is not raised. *)
Theorem server_error_on_5xx (response : ClientResponse) :
  500 <= status response ->
  (forall name f w,
      upstream (request_by_name name f) = Responded response ->
      fst (title_preview_by_name name (Some f) w)
      = Raise (ServerError (text response))) /\
  (forall title_id f w,
      upstream (request_by_id title_id f) = Responded response ->
      fst (title_preview_by_id title_id (Some f) w)
      = Raise (ServerError (text response))) /\
  (forall page name f w,
      upstream (request_page_by_name page name f) = Responded response ->
      fst (title_preview_page_by_name page name (Some f) w)
      = Raise (ServerError (text response))) /\
  (forall id w,
      upstream (request_relations_by_id id) = Responded response ->
      fst (title_relations_by_id id w)
      = Raise (ServerError (text response))).
Proof.
  intros Hstatus. apply Z.leb_le in Hstatus.
  repeat split.
  - intros name f w Hup. unfold title_preview_by_name. run_send.
    fold (request_by_name name f). rewrite Hup. cbn [checked].
    rewrite Hstatus. reflexivity.
  - intros title_id f w Hup. unfold title_preview_by_id. run_send.
    fold (request_by_id title_id f). rewrite Hup. cbn [checked].
    rewrite Hstatus. reflexivity.
  - intros page name f w Hup. unfold title_preview_page_by_name. run_send.
    fold (request_page_by_name page name f). rewrite Hup. cbn [checked].
    rewrite Hstatus. reflexivity.
  - intros id w Hup. unfold title_relations_by_id. cbv zeta.
    unfold mbind at 1; unfold M_bind at 1.
    rewrite send_request_to_source_run.
    fold (request_relations_by_id id). rewrite Hup. cbn [checked].
    rewrite Hstatus. reflexivity.
Qed.

(** ** What each query makes of a response that passes the status checks *)

Ltac pass_status Hlt Hne :=
  cbn [checked];
  rewrite (proj2 (Z.leb_gt _ _) Hlt);
  try rewrite (proj2 (Z.eqb_neq _ _) Hne).

Lemma title_preview_by_name_answer name f w response :
  upstream (request_by_name name f) = Responded response ->
  status response < 500 ->
  status response <> 404 ->
  fst (title_preview_by_name name (Some f) w)
  = (body ← decoded response;
     data ← getpath body ["data"; "Media"];
     preview_of_media data).
Proof.
  intros Hup Hlt Hne. unfold title_preview_by_name. run_send.
  fold (request_by_name name f). rewrite Hup. pass_status Hlt Hne.
  unfold ClientResponse_json, decoded, preview_of_media, preview_with, getpath.
  unfold_M. cbn.
  destruct (body_json response) as [body|]; cbn; [|reflexivity].
  destruct (getitem body "data") as [x|]; cbn; [|reflexivity].
  destruct (getitem x "Media") as [data|]; cbn; [|reflexivity].
  destruct (getitem data "title") as [title|]; cbn; reflexivity.
Qed.

Lemma title_preview_by_id_answer title_id f w response :
  upstream (request_by_id title_id f) = Responded response ->
  status response < 500 ->
  status response <> 404 ->
  fst (title_preview_by_id title_id (Some f) w)
  = (body ← decoded response;
     data ← getpath body ["data"; "Media"];
     preview_with (Ok (JInt title_id)) data).
Proof.
  intros Hup Hlt Hne. unfold title_preview_by_id. run_send.
  fold (request_by_id title_id f). rewrite Hup. pass_status Hlt Hne.
  unfold ClientResponse_json, decoded, preview_with, getpath.
  unfold_M. cbn.
  destruct (body_json response) as [body|]; cbn; [|reflexivity].
  destruct (getitem body "data") as [x|]; cbn; [|reflexivity].
  destruct (getitem x "Media") as [data|]; cbn; [|reflexivity].
  destruct (getitem data "title") as [title|]; cbn; reflexivity.
Qed.

(** The paged search has one status check only, that of
    [send_request_to_source]. *)
Lemma title_preview_page_by_name_answer page name f w response :
  upstream (request_page_by_name page name f) = Responded response ->
  status response < 500 ->
  fst (title_preview_page_by_name page name (Some f) w)
  = (body ← decoded response;
     media ← getpath body ["data"; "Page"; "media"];
     if truthy media
     then getitem0 media ≫= preview_of_media
     else Raise (TitleNotFound "Title not found!")).
Proof.
  intros Hup Hlt. unfold title_preview_page_by_name. run_send.
  fold (request_page_by_name page name f). rewrite Hup.
  cbn [checked]. rewrite (proj2 (Z.leb_gt _ _) Hlt).
  unfold ClientResponse_json, decoded, preview_of_media, preview_with, getpath.
  unfold_M. cbn.
  destruct (body_json response) as [body|]; cbn; [|reflexivity].
  destruct (getitem body "data") as [x|]; cbn; [|reflexivity].
  destruct (getitem x "Page") as [y|]; cbn; [|reflexivity].
  destruct (getitem y "media") as [media|]; cbn; [|reflexivity].
  destruct (truthy media); cbn; [|reflexivity].
  destruct (getitem0 media) as [data|]; cbn; [|reflexivity].
  destruct (getitem data "title") as [title|]; cbn; reflexivity.
Qed.

Lemma title_relations_by_id_answer id w response :
  upstream (request_relations_by_id id) = Responded response ->
  status response < 500 ->
  status response <> 404 ->
  fst (title_relations_by_id id w)
  = (body ← decoded response;
     edges ← getpath body ["data"; "Media"; "relations"; "edges"];
     items ← iter edges;
     mapM relation_of_edge items).
Proof.
  intros Hup Hlt Hne. unfold title_relations_by_id. cbv zeta.
  unfold mbind at 1; unfold M_bind at 1.
  rewrite send_request_to_source_run.
  fold (request_relations_by_id id). rewrite Hup. pass_status Hlt Hne.
  unfold ClientResponse_json, decoded, getpath.
  unfold_M. cbn.
  destruct (body_json response) as [body|]; cbn; [|reflexivity].
  destruct (getitem body "data") as [x|]; cbn; [|reflexivity].
  destruct (getitem x "Media") as [data|]; cbn; [|reflexivity].
  destruct (getitem data "relations") as [relations|]; cbn; [|reflexivity].
  destruct (getitem relations "edges") as [edges|]; cbn; [|reflexivity].
  destruct (iter edges) as [items|]; cbn; reflexivity.
Qed.

(** ** What is in a built object *)

Lemma TitlePreview_new_Ok a b c d e f g h i p :
  TitlePreview.new a b c d e f g h i = Ok p ->
  int_validator a = Some (TitlePreview.id p) /\
  optional_str_validator b = Some (TitlePreview.english_name p) /\
  optional_str_validator c = Some (TitlePreview.romaji_name p) /\
  optional_str_validator d = Some (TitlePreview.native_name p) /\
  str_validator e = Some (TitlePreview.title_format p) /\
  str_validator f = Some (TitlePreview.url p) /\
  optional_str_validator g = Some (TitlePreview.banner_image_url p) /\
  optional_str_validator h = Some (TitlePreview.description p) /\
  list_str_validator i = Some (TitlePreview.genres p).
Proof.
  unfold TitlePreview.new.
  destruct (int_validator a) as [a'|]; [|discriminate].
  destruct (optional_str_validator b) as [b'|]; [|discriminate].
  destruct (optional_str_validator c) as [c'|]; [|discriminate].
  destruct (optional_str_validator d) as [d'|]; [|discriminate].
  destruct (str_validator e) as [e'|]; [|discriminate].
  destruct (str_validator f) as [f'|]; [|discriminate].
  destruct (optional_str_validator g) as [g'|]; [|discriminate].
  destruct (optional_str_validator h) as [h'|]; [|discriminate].
  destruct (list_str_validator i) as [i'|]; [|discriminate].
  cbn. intros [= <-]. cbn. repeat split.
Qed.

Lemma TitleRelation_new_Ok a b c d e f g h i j p :
  TitleRelation.new a b c d e f g h i j = Ok p ->
  int_validator a = Some (TitleRelation.id p) /\
  optional_str_validator b = Some (TitleRelation.english_name p) /\
  optional_str_validator c = Some (TitleRelation.romaji_name p) /\
  optional_str_validator d = Some (TitleRelation.native_name p) /\
  str_validator e = Some (TitleRelation.title_format p) /\
  str_validator f = Some (TitleRelation.url p) /\
  optional_str_validator g = Some (TitleRelation.banner_image_url p) /\
  optional_str_validator h = Some (TitleRelation.description p) /\
  list_str_validator i = Some (TitleRelation.genres p) /\
  str_validator j = Some (TitleRelation.relation_type p).
Proof.
  unfold TitleRelation.new.
  destruct (int_validator a) as [a'|]; [|discriminate].
  destruct (optional_str_validator b) as [b'|]; [|discriminate].
  destruct (optional_str_validator c) as [c'|]; [|discriminate].
  destruct (optional_str_validator d) as [d'|]; [|discriminate].
  destruct (str_validator e) as [e'|]; [|discriminate].
  destruct (str_validator f) as [f'|]; [|discriminate].
  destruct (optional_str_validator g) as [g'|]; [|discriminate].
  destruct (optional_str_validator h) as [h'|]; [|discriminate].
  destruct (list_str_validator i) as [i'|]; [|discriminate].
  destruct (str_validator j) as [j'|]; [|discriminate].
  cbn. intros [= <-]. cbn. repeat split.
Qed.

Lemma escaped_from_intro raw v e field :
  raw = Ok v ->
  escape_html_tags_or_none v = Ok e ->
  optional_str_validator e = Some field ->
  escaped_from raw field.
Proof. intros. exists v, e. auto. Qed.

Lemma verbatim_text raw s field :
  raw = Ok (JStr s) -> verbatim_from raw field -> field = Some s.
Proof.
  intros Hraw (v & Hv & Hfield). rewrite Hraw in Hv. injection Hv as <-.
  cbn in Hfield. rewrite str_validator_str in Hfield. cbn in Hfield.
  congruence.
Qed.

Lemma preview_with_Ok id_arg data p :
  preview_with id_arg data = Ok p ->
  exists title idv,
    getitem data "title" = Ok title /\
    id_arg = Ok idv /\
    int_validator idv = Some (TitlePreview.id p) /\
    escaped_from (getitem title "english") (TitlePreview.english_name p) /\
    escaped_from (getitem title "romaji") (TitlePreview.romaji_name p) /\
    escaped_from (getitem title "native") (TitlePreview.native_name p) /\
    escaped_from (getitem data "description") (TitlePreview.description p).
Proof.
  unfold preview_with. intros Hp.
  apply result_bind_Ok in Hp as (title & Htitle & Hp).
  apply result_bind_Ok in Hp as (a & Ha & Hp).
  apply result_bind_Ok in Hp as (b & Hb & Hp).
  apply result_bind_Ok in Hp as (c & Hc & Hp).
  apply result_bind_Ok in Hp as (d & Hd & Hp).
  apply result_bind_Ok in Hp as (e & He & Hp).
  apply result_bind_Ok in Hp as (f & Hf & Hp).
  apply result_bind_Ok in Hp as (g & Hg & Hp).
  apply result_bind_Ok in Hp as (h & Hh & Hp).
  apply result_bind_Ok in Hp as (i & Hi & Hp).
  apply TitlePreview_new_Ok in Hp
    as (Pa & Pb & Pc & Pd & _ & _ & _ & Ph & _).
  apply result_bind_Ok in Hb as (b0 & Hb0 & Hb).
  apply result_bind_Ok in Hc as (c0 & Hc0 & Hc).
  apply result_bind_Ok in Hd as (d0 & Hd0 & Hd).
  apply result_bind_Ok in Hh as (h0 & Hh0 & Hh).
  exists title, a. repeat split; eauto using escaped_from_intro.
Qed.

Lemma relation_of_edge_Ok edge r :
  relation_of_edge edge = Ok r ->
  exists node title,
    getitem edge "node" = Ok node /\
    getitem node "title" = Ok title /\
    escaped_from (getitem title "english") (TitleRelation.english_name r) /\
    escaped_from (getitem title "romaji") (TitleRelation.romaji_name r) /\
    escaped_from (getitem title "native") (TitleRelation.native_name r) /\
    verbatim_from (getitem node "description") (TitleRelation.description r).
Proof.
  unfold relation_of_edge. intros Hp.
  apply result_bind_Ok in Hp as (node & Hnode & Hp).
  apply result_bind_Ok in Hp as (title & Htitle & Hp).
  apply result_bind_Ok in Hp as (a & Ha & Hp).
  apply result_bind_Ok in Hp as (b & Hb & Hp).
  apply result_bind_Ok in Hp as (c & Hc & Hp).
  apply result_bind_Ok in Hp as (d & Hd & Hp).
  apply result_bind_Ok in Hp as (e & He & Hp).
  apply result_bind_Ok in Hp as (f & Hf & Hp).
  apply result_bind_Ok in Hp as (g & Hg & Hp).
  apply result_bind_Ok in Hp as (h & Hh & Hp).
  apply result_bind_Ok in Hp as (i & Hi & Hp).
  apply result_bind_Ok in Hp as (j & Hj & Hp).
  apply TitleRelation_new_Ok in Hp
    as (_ & Pb & Pc & Pd & _ & _ & _ & Ph & _).
  apply result_bind_Ok in Hb as (b0 & Hb0 & Hb).
  apply result_bind_Ok in Hc as (c0 & Hc0 & Hc).
  apply result_bind_Ok in Hd as (d0 & Hd0 & Hd).
  exists node, title. repeat split; eauto using escaped_from_intro.
  exists h. auto.
Qed.

(** ** A query that returns got a response past the status checks *)

Lemma title_preview_by_name_reaches name tf w p :
  fst (title_preview_by_name name tf w) = Ok p ->
  exists f response,
    tf = Some f /\
    upstream (request_by_name name f) = Responded response /\
    status response < 500 /\
    status response <> 404.
Proof.
  destruct tf as [f|]; [|discriminate].
  unfold title_preview_by_name. run_send. fold (request_by_name name f).
  destruct (upstream (request_by_name name f)) as [response|] eqn:Hup;
    cbn [checked]; [|discriminate].
  destruct (500 <=? status response) eqn:H5; [discriminate|].
  destruct (status response =? 404) eqn:H4; [discriminate|].
  intros _. exists f, response.
  split; [reflexivity|]. split; [exact Hup|].
  split; [apply Z.leb_gt | apply Z.eqb_neq]; assumption.
Qed.

Lemma title_preview_by_id_reaches title_id tf w p :
  fst (title_preview_by_id title_id tf w) = Ok p ->
  exists f response,
    tf = Some f /\
    upstream (request_by_id title_id f) = Responded response /\
    status response < 500 /\
    status response <> 404.
Proof.
  destruct tf as [f|]; [|discriminate].
  unfold title_preview_by_id. run_send. fold (request_by_id title_id f).
  destruct (upstream (request_by_id title_id f)) as [response|] eqn:Hup;
    cbn [checked]; [|discriminate].
  destruct (500 <=? status response) eqn:H5; [discriminate|].
  destruct (status response =? 404) eqn:H4; [discriminate|].
  intros _. exists f, response.
  split; [reflexivity|]. split; [exact Hup|].
  split; [apply Z.leb_gt | apply Z.eqb_neq]; assumption.
Qed.

Lemma title_preview_page_by_name_reaches page name tf w p :
  fst (title_preview_page_by_name page name tf w) = Ok p ->
  exists f response,
    tf = Some f /\
    upstream (request_page_by_name page name f) = Responded response /\
    status response < 500.
Proof.
  destruct tf as [f|]; [|discriminate].
  unfold title_preview_page_by_name. run_send.
  fold (request_page_by_name page name f).
  destruct (upstream (request_page_by_name page name f))
    as [response|] eqn:Hup; cbn [checked]; [|discriminate].
  destruct (500 <=? status response) eqn:H5; [discriminate|].
  intros _. exists f, response.
  split; [reflexivity|]. split; [exact Hup|].
  apply Z.leb_gt. exact H5.
Qed.

Lemma title_relations_by_id_reaches id w rs :
  fst (title_relations_by_id id w) = Ok rs ->
  exists response,
    upstream (request_relations_by_id id) = Responded response /\
    status response < 500 /\
    status response <> 404.
Proof.
  unfold title_relations_by_id. cbv zeta.
  unfold mbind at 1; unfold M_bind at 1.
  rewrite send_request_to_source_run. fold (request_relations_by_id id).
  destruct (upstream (request_relations_by_id id)) as [response|] eqn:Hup;
    cbn [checked]; [|discriminate].
  destruct (500 <=? status response) eqn:H5; [discriminate|].
  destruct (status response =? 404) eqn:H4; [discriminate|].
  intros _. exists response. split; [reflexivity|].
  split; [apply Z.leb_gt | apply Z.eqb_neq]; assumption.
Qed.

(** C2: a response with status 404 makes the lookup by name, the lookup
    by id and the lookup of the relations raise [TitleNotFound]. *)
Theorem not_found_on_404 (response : ClientResponse) :
  status response = 404 ->
  (forall name f w,
      upstream (request_by_name name f) = Responded response ->
      fst (title_preview_by_name name (Some f) w)
      = Raise (TitleNotFound "Title with this name not found!")) /\
  (forall title_id f w,
      upstream (request_by_id title_id f) = Responded response ->
      fst (title_preview_by_id title_id (Some f) w)
      = Raise (TitleNotFound "Title with this name not found!")) /\
  (forall id w,
      upstream (request_relations_by_id id) = Responded response ->
      fst (title_relations_by_id id w)
      = Raise (TitleNotFound "Title with this id not found!")).
Proof.
  intros Hstatus.
  assert (Hlt : status response < 500) by lia.
  repeat split.
  - intros name f w Hup. unfold title_preview_by_name. run_send.
    fold (request_by_name name f). rewrite Hup. cbn [checked].
    rewrite (proj2 (Z.leb_gt _ _) Hlt). rewrite Hstatus. reflexivity.
  - intros title_id f w Hup. unfold title_preview_by_id. run_send.
    fold (request_by_id title_id f). rewrite Hup. cbn [checked].
    rewrite (proj2 (Z.leb_gt _ _) Hlt). rewrite Hstatus. reflexivity.
  - intros id w Hup. unfold title_relations_by_id. cbv zeta.
    unfold mbind at 1; unfold M_bind at 1.
    rewrite send_request_to_source_run.
    fold (request_relations_by_id id). rewrite Hup. cbn [checked].
    rewrite (proj2 (Z.leb_gt _ _) Hlt). rewrite Hstatus. reflexivity.
Qed.

(** ** Identifiers *)

(** C4: when the lookup by id returns, the id of the object is the id
    the caller gave, whatever the response holds. *)
Theorem id_lookup_keeps_caller_id title_id tf w p :
  fst (title_preview_by_id title_id tf w) = Ok p ->
  TitlePreview.id p = title_id.
Proof.
  intros Hp.
  destruct (title_preview_by_id_reaches _ _ _ _ Hp)
    as (f & response & -> & Hup & Hlt & Hne).
  rewrite (title_preview_by_id_answer _ _ _ _ Hup Hlt Hne) in Hp.
  apply result_bind_Ok in Hp as (body & _ & Hp).
  apply result_bind_Ok in Hp as (data & _ & Hp).
  apply preview_with_Ok in Hp as (title & idv & _ & Hid & Hval & _).
  injection Hid as <-. rewrite int_validator_int in Hval.
  injection Hval as ->. reflexivity.
Qed.

(** C9: when the lookup by name returns, the id of the object is the
    validated [id] of the [Media] record of the response, so it is that
    id whenever the response holds an integer there. *)
Theorem name_lookup_id_from_response name tf w p :
  fst (title_preview_by_name name tf w) = Ok p ->
  exists f response body data idv,
    tf = Some f /\
    upstream (request_by_name name f) = Responded response /\
    body_json response = Some body /\
    getpath body ["data"; "Media"] = Ok data /\
    getitem data "id" = Ok idv /\
    int_validator idv = Some (TitlePreview.id p) /\
    (forall n, idv = JInt n -> TitlePreview.id p = n).
Proof.
  intros Hp.
  destruct (title_preview_by_name_reaches _ _ _ _ Hp)
    as (f & response & -> & Hup & Hlt & Hne).
  rewrite (title_preview_by_name_answer _ _ _ _ Hup Hlt Hne) in Hp.
  apply result_bind_Ok in Hp as (body & Hbody & Hp).
  apply result_bind_Ok in Hp as (data & Hdata & Hp).
  apply preview_with_Ok in Hp as (title & idv & _ & Hid & Hval & _).
  exists f, response, body, data, idv. repeat split; auto.
  - unfold decoded in Hbody. destruct (body_json response); congruence.
  - intros n ->. rewrite int_validator_int in Hval. congruence.
Qed.

(** ** Errors that are none of the client's *)

Lemma untyped_bind {A B : Type} (r : result A) (f : A -> result B) :
  untyped r -> (forall a, untyped (f a)) -> untyped (r ≫= f).
Proof.
  intros Hr Hf e. destruct r as [a|e']; cbn.
  - apply Hf.
  - intros [= <-]. apply Hr. reflexivity.
Qed.

Lemma untyped_getitem v k : untyped (getitem v k).
Proof.
  intros e. unfold getitem. destruct v; try (intros [= <-]; reflexivity).
  destruct (m !! k); intros [= <-]. reflexivity.
Qed.

Lemma untyped_getitem0 v : untyped (getitem0 v).
Proof.
  intros e. unfold getitem0.
  destruct v as [| | | |s|l|]; try (intros [= <-]; reflexivity).
  - destruct s; intros [= <-]; reflexivity.
  - destruct l; intros [= <-]; reflexivity.
Qed.

Lemma untyped_getpath v path : untyped (getpath v path).
Proof.
  unfold getpath. assert (Hv : untyped (Ok v)) by (intros e; discriminate).
  revert Hv. generalize (Ok v). induction path as [|k path IH]; intros r Hr.
  - exact Hr.
  - cbn. apply IH. apply untyped_bind; [exact Hr|].
    intros a. apply untyped_getitem.
Qed.

Lemma untyped_TitlePreview_new a b c d e f g h i :
  untyped (TitlePreview.new a b c d e f g h i).
Proof.
  intros x. unfold TitlePreview.new.
  match goal with |- context [match ?o with Some _ => _ | None => _ end] =>
    destruct o end; intros [= <-]. reflexivity.
Qed.

Lemma untyped_preview_with id_arg data :
  (forall v, untyped (escape_html_tags_or_none v)) ->
  untyped id_arg ->
  untyped (preview_with id_arg data).
Proof.
  intros Hesc Hid. unfold preview_with.
  repeat (apply untyped_bind;
          [first [ apply untyped_getitem | exact Hid
                 | apply untyped_bind;
                   [apply untyped_getitem | intros ?; apply Hesc] ]
          | intros ?]).
  apply untyped_TitlePreview_new.
Qed.

(** C10: the paged search does not look at the status once it is below
    500 (404 included): it decodes the body, raises [TitleNotFound]
    exactly when the [media] value is empty, and lets every failure of
    decoding or of reading the body through as it is. *)
Theorem page_lookup_has_no_404_check page name f w response :
  upstream (request_page_by_name page name f) = Responded response ->
  status response < 500 ->
  (forall v, untyped (escape_html_tags_or_none v)) ->
  let outcome := fst (title_preview_page_by_name page name (Some f) w) in
  outcome
  = (body ← decoded response;
     media ← getpath body ["data"; "Page"; "media"];
     if truthy media
     then getitem0 media ≫= preview_of_media
     else Raise (TitleNotFound "Title not found!")) /\
  (body_json response = None -> outcome = Raise ResponseDecodeError) /\
  (forall body e,
      body_json response = Some body ->
      getpath body ["data"; "Page"; "media"] = Raise e ->
      outcome = Raise e /\ is_typed_error e = false) /\
  (forall body media,
      body_json response = Some body ->
      getpath body ["data"; "Page"; "media"] = Ok media ->
      ((exists msg, outcome = Raise (TitleNotFound msg)) <->
       truthy media = false)) /\
  (forall body l,
      body_json response = Some body ->
      getpath body ["data"; "Page"; "media"] = Ok (JList l) ->
      ((exists msg, outcome = Raise (TitleNotFound msg)) <-> l = [])) /\
  (forall e,
      outcome = Raise e ->
      e = TitleNotFound "Title not found!" \/ is_typed_error e = false).
Proof.
  intros Hup Hlt Hesc outcome. subst outcome.
  rewrite (title_preview_page_by_name_answer _ _ _ _ _ Hup Hlt).
  assert (Hbuild : forall media,
             untyped (getitem0 media ≫= preview_of_media)).
  { intros media. apply untyped_bind; [apply untyped_getitem0|].
    intros data. apply untyped_preview_with; [exact Hesc|].
    apply untyped_getitem. }
  assert (Hiff : forall body media,
             body_json response = Some body ->
             getpath body ["data"; "Page"; "media"] = Ok media ->
             ((exists msg,
                  (body ← decoded response;
                   media ← getpath body ["data"; "Page"; "media"];
                   if truthy media
                   then getitem0 media ≫= preview_of_media
                   else Raise (TitleNotFound "Title not found!"))
                  = Raise (TitleNotFound msg)) <->
              truthy media = false)).
  { intros body media Hbody Hmedia. unfold decoded. rewrite Hbody.
    cbn [mbind result_bind]. rewrite Hmedia. cbn [mbind result_bind].
    destruct (truthy media); split.
    - intros [msg Hmsg]. apply Hbuild in Hmsg. discriminate.
    - discriminate.
    - reflexivity.
    - intros _. eexists. reflexivity. }
  split; [reflexivity|]. split; [|split; [|split; [|split]]].
  - intros Hnone. unfold decoded. rewrite Hnone. reflexivity.
  - intros body e Hbody He. unfold decoded. rewrite Hbody.
    cbn [mbind result_bind]. rewrite He. split; [reflexivity|].
    eapply untyped_getpath. exact He.
  - exact Hiff.
  - intros body l Hbody Hmedia. rewrite (Hiff _ _ Hbody Hmedia).
    destruct l; cbn; split; congruence.
  - intros e. unfold decoded.
    destruct (body_json response) as [body|]; cbn [mbind result_bind];
      [|intros [= <-]; right; reflexivity].
    destruct (getpath body ["data"; "Page"; "media"]) as [media|e'] eqn:Hm;
      cbn [mbind result_bind].
    + destruct (truthy media).
      * intros He. right. eapply Hbuild. exact He.
      * intros [= <-]. left. reflexivity.
    + intros [= <-]. right. eapply untyped_getpath. exact Hm.
Qed.

(** ** The relations *)


(** ** Escaping *)

Lemma title_preview_by_name_escaped name tf w p :
  fst (title_preview_by_name name tf w) = Ok p ->
  exists data title,
    getitem data "title" = Ok title /\
    escaped_from (getitem title "english") (TitlePreview.english_name p) /\
    escaped_from (getitem title "romaji") (TitlePreview.romaji_name p) /\
    escaped_from (getitem title "native") (TitlePreview.native_name p) /\
    escaped_from (getitem data "description") (TitlePreview.description p).
Proof.
  intros Hp.
  destruct (title_preview_by_name_reaches _ _ _ _ Hp)
    as (f & response & -> & Hup & Hlt & Hne).
  rewrite (title_preview_by_name_answer _ _ _ _ Hup Hlt Hne) in Hp.
  apply result_bind_Ok in Hp as (body & _ & Hp).
  apply result_bind_Ok in Hp as (data & _ & Hp).
  apply preview_with_Ok in Hp as (title & idv & Ht & _ & _ & Hfields).
  exists data, title. auto.
Qed.

Lemma title_preview_by_id_escaped title_id tf w p :
  fst (title_preview_by_id title_id tf w) = Ok p ->
  exists data title,
    getitem data "title" = Ok title /\
    escaped_from (getitem title "english") (TitlePreview.english_name p) /\
    escaped_from (getitem title "romaji") (TitlePreview.romaji_name p) /\
    escaped_from (getitem title "native") (TitlePreview.native_name p) /\
    escaped_from (getitem data "description") (TitlePreview.description p).
Proof.
  intros Hp.
  destruct (title_preview_by_id_reaches _ _ _ _ Hp)
    as (f & response & -> & Hup & Hlt & Hne).
  rewrite (title_preview_by_id_answer _ _ _ _ Hup Hlt Hne) in Hp.
  apply result_bind_Ok in Hp as (body & _ & Hp).
  apply result_bind_Ok in Hp as (data & _ & Hp).
  apply preview_with_Ok in Hp as (title & idv & Ht & _ & _ & Hfields).
  exists data, title. auto.
Qed.

Lemma title_preview_page_by_name_escaped page name tf w p :
  fst (title_preview_page_by_name page name tf w) = Ok p ->
  exists data title,
    getitem data "title" = Ok title /\
    escaped_from (getitem title "english") (TitlePreview.english_name p) /\
    escaped_from (getitem title "romaji") (TitlePreview.romaji_name p) /\
    escaped_from (getitem title "native") (TitlePreview.native_name p) /\
    escaped_from (getitem data "description") (TitlePreview.description p).
Proof.
  intros Hp.
  destruct (title_preview_page_by_name_reaches _ _ _ _ _ Hp)
    as (f & response & -> & Hup & Hlt).
  rewrite (title_preview_page_by_name_answer _ _ _ _ _ Hup Hlt) in Hp.
  apply result_bind_Ok in Hp as (body & _ & Hp).
  apply result_bind_Ok in Hp as (media & _ & Hp).
  destruct (truthy media); [|discriminate].
  apply result_bind_Ok in Hp as (data & _ & Hp).
  apply preview_with_Ok in Hp as (title & idv & Ht & _ & _ & Hfields).
  exists data, title. auto.
Qed.

(** In a relation the three names are escaped, and the description is
    the one of the response as it is. *)
Lemma title_relations_by_id_fields id w rs r :
  fst (title_relations_by_id id w) = Ok rs ->
  r ∈ rs ->
  exists node title,
    getitem node "title" = Ok title /\
    escaped_from (getitem title "english") (TitleRelation.english_name r) /\
    escaped_from (getitem title "romaji") (TitleRelation.romaji_name r) /\
    escaped_from (getitem title "native") (TitleRelation.native_name r) /\
    verbatim_from (getitem node "description") (TitleRelation.description r).
Proof.
  intros Hrs Hin.
  destruct (title_relations_by_id_reaches _ _ _ Hrs)
    as (response & Hup & Hlt & Hne).
  rewrite (title_relations_by_id_answer _ _ _ Hup Hlt Hne) in Hrs.
  apply result_bind_Ok in Hrs as (body & _ & Hrs).
  apply result_bind_Ok in Hrs as (edges & _ & Hrs).
  apply result_bind_Ok in Hrs as (items & _ & Hrs).
  apply mapM_result_Ok in Hrs.
  apply list_elem_of_lookup in Hin as [i Hi].
  destruct (Forall2_lookup_r _ _ _ _ _ Hrs Hi) as (edge & _ & Hbuilt).
  apply relation_of_edge_Ok in Hbuilt
    as (node & title & _ & Ht & Hfields).
  exists node, title. auto.
Qed.

(** ** The life of the session *)

(** C7: an access to the session creates and stores a session object
    when the client holds none (so on the first access) or holds a
    closed one, and returns the stored object, changing nothing, when
    it is open; an access that follows another reuses its object; and
    after any sequence of accesses and closes on a new client the next
    access is one of these cases. *)
Theorem session_created_lazily_and_reused :
  session initial_world = (Ok 0%nat, renewed initial_world) /\
  (forall w,
      _session (self w) = None ->
      session w = (Ok (length (sessions w)), renewed w)) /\
  (forall w r s,
      _session (self w) = Some r ->
      sessions w !! r = Some s ->
      closed s = false ->
      session w = (Ok r, w)) /\
  (forall w r s,
      _session (self w) = Some r ->
      sessions w !! r = Some s ->
      closed s = true ->
      session w = (Ok (length (sessions w)), renewed w) /\
      length (sessions w) <> r) /\
  (forall w,
      sessions w !! length (sessions w) = None /\
      _session (self (renewed w)) = Some (length (sessions w)) /\
      sessions (renewed w) !! length (sessions w)
      = Some {| closed := false; timeout_total := 60 |} /\
      forall r s, sessions w !! r = Some s ->
                  sessions (renewed w) !! r = Some s) /\
  (forall w, exists r w',
      session w = (Ok r, w') /\ session w' = (Ok r, w')) /\
  (forall acts,
      match _session (self (after acts)) with
      | None =>
          session (after acts)
          = (Ok (length (sessions (after acts))), renewed (after acts))
      | Some r =>
          exists s,
            sessions (after acts) !! r = Some s /\
            session (after acts)
            = if closed s
              then (Ok (length (sessions (after acts))),
                    renewed (after acts))
              else (Ok r, after acts)
      end).
Proof.
  split; [reflexivity|].
  split; [exact session_fresh|].
  split; [exact session_reuse|].
  split; [|split; [|split]].
  - intros w r s Hr Hs Hc. split; [eapply session_stale; eauto|].
    apply lookup_lt_Some in Hs. lia.
  - intros w. split; [apply lookup_ge_None; lia|].
    split; [reflexivity|]. split; [apply renewed_open|].
    intros r s Hs. cbn. apply lookup_app_l_Some. exact Hs.
  - intros w. destruct (session_open w) as (r & w' & s & Hrun & Hr & Hs & Hc).
    exists r, w'. split; [exact Hrun|]. eapply session_reuse; eauto.
  - intros acts. apply session_by_state. apply wf_after.
Qed.

Lemma close_count_app l e :
  close_count (l ++ [e]) = (close_count l + (if is_close e then 1 else 0))%nat.
Proof.
  unfold close_count. rewrite List.filter_app, length_app. cbn.
  destruct (is_close e); reflexivity.
Qed.

(** What a call of [close] does, by the state of the client. *)
Lemma close_run w :
  (exists r s,
      _session (self w) = Some r /\ sessions w !! r = Some s /\
      closed s = false /\
      close w = (Ok tt,
                 {| self := self w;
                    sessions := alter mark_closed r (sessions w);
                    log := log w ++ [SessionClosed r] |})) \/
  ((forall r s, _session (self w) = Some r -> sessions w !! r = Some s ->
                closed s = true) /\
   close w = (Ok tt, w)).
Proof.
  unfold close, read_session, ClientSession_closed, ClientSession_close.
  unfold_M.
  destruct (_session (self w)) as [r|] eqn:Hr.
  - destruct (sessions w !! r) as [s|] eqn:Hs.
    + destruct (closed s) eqn:Hc.
      * right. split; [|reflexivity]. intros r' s' [= <-] Hs'. congruence.
      * left. exists r, s. auto.
    + right. split; [|reflexivity]. intros r' s' [= <-] Hs'. congruence.
  - right. split; [|reflexivity]. discriminate.
Qed.

(** C8: [close] never raises; called on a client that never had a
    session it changes nothing; called again after a call it changes
    nothing; and two calls in a row close a session object once at the
    most. *)
Theorem close_idempotent (w : World) :
  fst (close w) = Ok tt /\
  (_session (self w) = None -> close w = (Ok tt, w)) /\
  close (snd (close w)) = (Ok tt, snd (close w)) /\
  (forall r s,
      _session (self w) = Some r ->
      sessions w !! r = Some s ->
      exists s', sessions (snd (close w)) !! r = Some s' /\
                 closed s' = true) /\
  (close_count (log (snd (close (snd (close w)))))
   <= S (close_count (log w)))%nat.
Proof.
  assert (Hsecond : close (snd (close w)) = (Ok tt, snd (close w))).
  { destruct (close_run w) as [(r & s & Hr & Hs & Hc & Hrun)|[_ Hrun]];
      rewrite Hrun; cbn [snd]; [|exact Hrun].
    destruct (close_run
                {| self := self w;
                   sessions := alter mark_closed r (sessions w);
                   log := log w ++ [SessionClosed r] |})
      as [(r' & s' & Hr' & Hs' & Hc' & _)|[_ Hagain]]; [|exact Hagain].
    cbn in Hr', Hs'. rewrite Hr in Hr'. injection Hr' as <-.
    rewrite list_lookup_alter_eq, Hs in Hs'. cbn in Hs'.
    injection Hs' as <-. discriminate. }
  split; [|split; [|split; [exact Hsecond|split]]].
  - destruct (close_run w) as [(r & s & _ & _ & _ & ->)|[_ ->]]; reflexivity.
  - intros Hnone.
    destruct (close_run w) as [(r & s & Hr & _)|[_ Hrun]]; [congruence|].
    exact Hrun.
  - intros r s Hr Hs.
    destruct (close_run w) as [(r' & s' & Hr' & Hs' & Hc & ->)|[Hall ->]]; cbn.
    + rewrite Hr in Hr'. injection Hr' as <-.
      exists (mark_closed s). rewrite list_lookup_alter_eq, Hs. auto.
    + exists s. split; [exact Hs|]. eapply Hall; eauto.
  - rewrite Hsecond. cbn [snd].
    destruct (close_run w) as [(r & s & _ & _ & _ & ->)|[_ ->]]; cbn [snd log].
    + rewrite close_count_app. cbn. lia.
    + lia.
Qed.

(** ** The world after a query *)

Lemma stateless_lift {A : Type} (r : result A) : stateless (lift r).
Proof. exists r. reflexivity. Qed.

Lemma stateless_raise {A : Type} (e : exn) : stateless (raise (A:=A) e).
Proof. exists (Raise e). reflexivity. Qed.

Lemma stateless_bind {A B : Type} (m : M A) (f : A -> M B) :
  stateless m -> (forall a, stateless (f a)) -> stateless (m ≫= f).
Proof.
  intros [[a|e] Hm] Hf.
  - destruct (Hf a) as [r Hr]. exists r. intros w.
    unfold mbind, M_bind. rewrite Hm. apply Hr.
  - exists (Raise e). intros w. unfold mbind, M_bind. rewrite Hm. reflexivity.
Qed.

Lemma stateless_json response : stateless (ClientResponse_json response).
Proof.
  unfold ClientResponse_json. destruct (body_json response).
  - eexists. reflexivity.
  - apply stateless_raise.
Qed.

Lemma stateless_if {A : Type} (b : bool) (m1 m2 : M A) :
  stateless m1 -> stateless m2 -> stateless (if b then m1 else m2).
Proof. destruct b; auto. Qed.

Ltac prove_stateless :=
  repeat first
    [ apply stateless_lift
    | apply stateless_raise
    | apply stateless_json
    | apply stateless_if
    | apply stateless_bind; [|intros ?] ].

(** What follows the post in a query does not touch the world: the
    world after the query is the world after the post. *)
Lemma query_after_send {A : Type} q v (k : ClientResponse -> M A) :
  (forall response, stateless (k response)) ->
  exists o, forall w,
    (send_request_to_source q v ≫= k) w
    = (o, sent {| url := source_url; query := q; variables := v |} w).
Proof.
  intros Hk.
  destruct (checked (upstream {| url := source_url; query := q;
                                 variables := v |}))
    as [response|e] eqn:Hc.
  - destruct (Hk response) as [o Ho]. exists o. intros w.
    unfold mbind, M_bind. rewrite send_request_to_source_run.
    cbv zeta. rewrite Hc. apply Ho.
  - exists (Raise e). intros w.
    unfold mbind, M_bind. rewrite send_request_to_source_run.
    cbv zeta. rewrite Hc. reflexivity.
Qed.

Lemma title_preview_by_name_run name f :
  exists o, forall w,
    title_preview_by_name name (Some f) w
    = (o, sent (request_by_name name f) w).
Proof.
  unfold title_preview_by_name, request_by_name.
  eapply (query_after_send _ _ (fun response => _)).
  intros response. prove_stateless.
Qed.

Lemma title_preview_by_id_run title_id f :
  exists o, forall w,
    title_preview_by_id title_id (Some f) w
    = (o, sent (request_by_id title_id f) w).
Proof.
  unfold title_preview_by_id, request_by_id.
  eapply (query_after_send _ _ (fun response => _)).
  intros response. prove_stateless.
Qed.

Lemma title_preview_page_by_name_run page name f :
  exists o, forall w,
    title_preview_page_by_name page name (Some f) w
    = (o, sent (request_page_by_name page name f) w).
Proof.
  unfold title_preview_page_by_name, request_page_by_name.
  eapply (query_after_send _ _ (fun response => _)).
  intros response. prove_stateless.
Qed.

Lemma title_relations_by_id_run id :
  exists o, forall w,
    title_relations_by_id id w
    = (o, sent (request_relations_by_id id) w).
Proof.
  unfold title_relations_by_id, request_relations_by_id.
  eapply (query_after_send _ _ (fun response => _)).
  intros response. prove_stateless.
Qed.

Lemma session_cases w :
  (exists r s,
      _session (self w) = Some r /\ sessions w !! r = Some s /\
      closed s = false /\ session w = (Ok r, w)) \/
  session w = (Ok (length (sessions w)), renewed w).
Proof.
  destruct (_session (self w)) as [r|] eqn:Hr.
  - destruct (sessions w !! r) as [s|] eqn:Hs.
    + destruct (closed s) eqn:Hc.
      * right. eapply session_stale; eauto.
      * left. exists r, s. repeat split; auto. eapply session_reuse; eauto.
    + right. unfold session, read_session, ClientSession_closed.
      unfold_M. rewrite Hr, Hs. reflexivity.
  - right. apply session_fresh. exact Hr.
Qed.

Lemma post_count_app l e :
  post_count (l ++ [e]) = (post_count l + (if is_post e then 1 else 0))%nat.
Proof.
  unfold post_count. rewrite List.filter_app, length_app. cbn.
  destruct (is_post e); reflexivity.
Qed.

Lemma opened_count_app l e :
  opened_count (l ++ [e])
  = (opened_count l + (if is_open_event e then 1 else 0))%nat.
Proof.
  unfold opened_count. rewrite List.filter_app, length_app. cbn.
  destruct (is_open_event e); reflexivity.
Qed.

Lemma session_post_count w :
  post_count (log (snd (session w))) = post_count (log w).
Proof.
  destruct (session_cases w) as [(r & s & _ & _ & _ & ->)| ->]; cbn [snd].
  - reflexivity.
  - unfold renewed. cbn [log]. rewrite post_count_app. cbn [is_post]. lia.
Qed.

Lemma sent_posted req w :
  exists r,
    fst (session w) = Ok r /\
    sent req w = snd (emit (Posted r req) (snd (session w))) /\
    post_count (log (sent req w)) = S (post_count (log w)).
Proof.
  destruct (session_open w) as (r & w' & s & Hrun & _).
  exists r. unfold sent.
  assert (Hcount : post_count (log w') = post_count (log w)).
  { rewrite <- (session_post_count w). rewrite Hrun. reflexivity. }
  rewrite Hrun. split; [reflexivity|]. split; [reflexivity|].
  unfold emit. cbn [snd log]. rewrite post_count_app. cbn [is_post]. lia.
Qed.

(** X1: a query given a format posts one request, the one of the
    query, on the session of the client, and posts no other, whatever
    the answer and whatever the query makes of it. *)
Theorem one_post_per_query (w : World) :
  (forall name f, exists r,
      fst (session w) = Ok r /\
      snd (title_preview_by_name name (Some f) w)
      = snd (emit (Posted r (request_by_name name f)) (snd (session w))) /\
      post_count (log (snd (title_preview_by_name name (Some f) w)))
      = S (post_count (log w))) /\
  (forall title_id f, exists r,
      fst (session w) = Ok r /\
      snd (title_preview_by_id title_id (Some f) w)
      = snd (emit (Posted r (request_by_id title_id f)) (snd (session w))) /\
      post_count (log (snd (title_preview_by_id title_id (Some f) w)))
      = S (post_count (log w))) /\
  (forall page name f, exists r,
      fst (session w) = Ok r /\
      snd (title_preview_page_by_name page name (Some f) w)
      = snd (emit (Posted r (request_page_by_name page name f))
               (snd (session w))) /\
      post_count (log (snd (title_preview_page_by_name page name (Some f) w)))
      = S (post_count (log w))) /\
  (forall id, exists r,
      fst (session w) = Ok r /\
      snd (title_relations_by_id id w)
      = snd (emit (Posted r (request_relations_by_id id)) (snd (session w))) /\
      post_count (log (snd (title_relations_by_id id w)))
      = S (post_count (log w))).
Proof.
  split; [|split; [|split]].
  - intros name f. destruct (title_preview_by_name_run name f) as [o Ho].
    rewrite Ho. cbn [snd]. apply sent_posted.
  - intros title_id f. destruct (title_preview_by_id_run title_id f) as [o Ho].
    rewrite Ho. cbn [snd]. apply sent_posted.
  - intros page name f.
    destruct (title_preview_page_by_name_run page name f) as [o Ho].
    rewrite Ho. cbn [snd]. apply sent_posted.
  - intros id. destruct (title_relations_by_id_run id) as [o Ho].
    rewrite Ho. cbn [snd]. apply sent_posted.
Qed.

(** X2: what a query returns or raises does not depend on the state of
    the client: with no session, an open one or a closed one the
    outcome is the same. *)
Theorem outcome_independent_of_session (w w' : World) :
  (forall name tf,
      fst (title_preview_by_name name tf w)
      = fst (title_preview_by_name name tf w')) /\
  (forall title_id tf,
      fst (title_preview_by_id title_id tf w)
      = fst (title_preview_by_id title_id tf w')) /\
  (forall page name tf,
      fst (title_preview_page_by_name page name tf w)
      = fst (title_preview_page_by_name page name tf w')) /\
  (forall id,
      fst (title_relations_by_id id w) = fst (title_relations_by_id id w')).
Proof.
  split; [|split; [|split]].
  - intros name [f|]; [|reflexivity].
    destruct (title_preview_by_name_run name f) as [o Ho].
    rewrite !Ho. reflexivity.
  - intros title_id [f|]; [|reflexivity].
    destruct (title_preview_by_id_run title_id f) as [o Ho].
    rewrite !Ho. reflexivity.
  - intros page name [f|]; [|reflexivity].
    destruct (title_preview_page_by_name_run page name f) as [o Ho].
    rewrite !Ho. reflexivity.
  - intros id. destruct (title_relations_by_id_run id) as [o Ho].
    rewrite !Ho. reflexivity.
Qed.

Lemma title_preview_by_name_transport name f w :
  upstream (request_by_name name f) = TransportFailure ->
  fst (title_preview_by_name name (Some f) w) = Raise ClientConnectionError.
Proof.
  intros Hup. unfold title_preview_by_name. run_send.
  fold (request_by_name name f). rewrite Hup. reflexivity.
Qed.

Lemma title_preview_by_id_transport title_id f w :
  upstream (request_by_id title_id f) = TransportFailure ->
  fst (title_preview_by_id title_id (Some f) w) = Raise ClientConnectionError.
Proof.
  intros Hup. unfold title_preview_by_id. run_send.
  fold (request_by_id title_id f). rewrite Hup. reflexivity.
Qed.

Lemma title_preview_page_by_name_transport page name f w :
  upstream (request_page_by_name page name f) = TransportFailure ->
  fst (title_preview_page_by_name page name (Some f) w)
  = Raise ClientConnectionError.
Proof.
  intros Hup. unfold title_preview_page_by_name. run_send.
  fold (request_page_by_name page name f). rewrite Hup. reflexivity.
Qed.

Lemma title_relations_by_id_transport id w :
  upstream (request_relations_by_id id) = TransportFailure ->
  fst (title_relations_by_id id w) = Raise ClientConnectionError.
Proof.
  intros Hup. unfold title_relations_by_id. cbv zeta.
  unfold mbind at 1; unfold M_bind at 1.
  rewrite send_request_to_source_run.
  fold (request_relations_by_id id). rewrite Hup. reflexivity.
Qed.

(** X3: a failure of the transport comes out of each query as it is:
    nothing is returned and neither of the client's errors is raised. *)
Theorem transport_failure_propagates (w : World) :
  (forall name f,
      upstream (request_by_name name f) = TransportFailure ->
      fst (title_preview_by_name name (Some f) w)
      = Raise ClientConnectionError) /\
  (forall title_id f,
      upstream (request_by_id title_id f) = TransportFailure ->
      fst (title_preview_by_id title_id (Some f) w)
      = Raise ClientConnectionError) /\
  (forall page name f,
      upstream (request_page_by_name page name f) = TransportFailure ->
      fst (title_preview_page_by_name page name (Some f) w)
      = Raise ClientConnectionError) /\
  (forall id,
      upstream (request_relations_by_id id) = TransportFailure ->
      fst (title_relations_by_id id w) = Raise ClientConnectionError).
Proof.
  split; [|split; [|split]].
  - intros name f. apply title_preview_by_name_transport.
  - intros title_id f. apply title_preview_by_id_transport.
  - intros page name f. apply title_preview_page_by_name_transport.
  - intros id. apply title_relations_by_id_transport.
Qed.

(** ** The outcome of a query, by the answer *)

Lemma title_preview_by_name_outcome name f w response :
  upstream (request_by_name name f) = Responded response ->
  fst (title_preview_by_name name (Some f) w)
  = if 500 <=? status response then Raise (ServerError (text response))
    else if status response =? 404
    then Raise (TitleNotFound "Title with this name not found!")
    else (body ← decoded response;
          data ← getpath body ["data"; "Media"];
          preview_of_media data).
Proof.
  intros Hup.
  destruct (500 <=? status response) eqn:H5;
    [|destruct (status response =? 404) eqn:H4].
  - unfold title_preview_by_name. run_send.
    fold (request_by_name name f). rewrite Hup. cbn [checked].
    rewrite H5. reflexivity.
  - unfold title_preview_by_name. run_send.
    fold (request_by_name name f). rewrite Hup. cbn [checked].
    rewrite H5, H4. reflexivity.
  - apply title_preview_by_name_answer; [exact Hup| |].
    + apply Z.leb_gt. exact H5.
    + apply Z.eqb_neq. exact H4.
Qed.

Lemma title_preview_by_id_outcome title_id f w response :
  upstream (request_by_id title_id f) = Responded response ->
  fst (title_preview_by_id title_id (Some f) w)
  = if 500 <=? status response then Raise (ServerError (text response))
    else if status response =? 404
    then Raise (TitleNotFound "Title with this name not found!")
    else (body ← decoded response;
          data ← getpath body ["data"; "Media"];
          preview_with (Ok (JInt title_id)) data).
Proof.
  intros Hup.
  destruct (500 <=? status response) eqn:H5;
    [|destruct (status response =? 404) eqn:H4].
  - unfold title_preview_by_id. run_send.
    fold (request_by_id title_id f). rewrite Hup. cbn [checked].
    rewrite H5. reflexivity.
  - unfold title_preview_by_id. run_send.
    fold (request_by_id title_id f). rewrite Hup. cbn [checked].
    rewrite H5, H4. reflexivity.
  - apply title_preview_by_id_answer; [exact Hup| |].
    + apply Z.leb_gt. exact H5.
    + apply Z.eqb_neq. exact H4.
Qed.

Lemma title_preview_page_by_name_outcome page name f w response :
  upstream (request_page_by_name page name f) = Responded response ->
  fst (title_preview_page_by_name page name (Some f) w)
  = if 500 <=? status response then Raise (ServerError (text response))
    else (body ← decoded response;
          media ← getpath body ["data"; "Page"; "media"];
          if truthy media
          then getitem0 media ≫= preview_of_media
          else Raise (TitleNotFound "Title not found!")).
Proof.
  intros Hup. destruct (500 <=? status response) eqn:H5.
  - unfold title_preview_page_by_name. run_send.
    fold (request_page_by_name page name f). rewrite Hup. cbn [checked].
    rewrite H5. reflexivity.
  - apply title_preview_page_by_name_answer; [exact Hup|].
    apply Z.leb_gt. exact H5.
Qed.

Lemma title_relations_by_id_outcome id w response :
  upstream (request_relations_by_id id) = Responded response ->
  fst (title_relations_by_id id w)
  = if 500 <=? status response then Raise (ServerError (text response))
    else if status response =? 404
    then Raise (TitleNotFound "Title with this id not found!")
    else (body ← decoded response;
          edges ← getpath body ["data"; "Media"; "relations"; "edges"];
          items ← iter edges;
          mapM relation_of_edge items).
Proof.
  intros Hup.
  destruct (500 <=? status response) eqn:H5;
    [|destruct (status response =? 404) eqn:H4].
  - unfold title_relations_by_id. cbv zeta.
    unfold mbind at 1; unfold M_bind at 1.
    rewrite send_request_to_source_run.
    fold (request_relations_by_id id). rewrite Hup. cbn [checked].
    rewrite H5. reflexivity.
  - unfold title_relations_by_id. cbv zeta.
    unfold mbind at 1; unfold M_bind at 1.
    rewrite send_request_to_source_run.
    fold (request_relations_by_id id). rewrite Hup. cbn [checked].
    rewrite H5, H4. reflexivity.
  - apply title_relations_by_id_answer; [exact Hup| |].
    + apply Z.leb_gt. exact H5.
    + apply Z.eqb_neq. exact H4.
Qed.

Lemma untyped_decoded response : untyped (decoded response).
Proof.
  intros e. unfold decoded. destruct (body_json response); intros [= <-].
  reflexivity.
Qed.

Lemma untyped_iter v : untyped (iter v).
Proof. intros e. destruct v; intros [= <-]; reflexivity. Qed.

Lemma untyped_TitleRelation_new a b c d e f g h i j :
  untyped (TitleRelation.new a b c d e f g h i j).
Proof.
  intros x. unfold TitleRelation.new.
  match goal with |- context [match ?o with Some _ => _ | None => _ end] =>
    destruct o end; intros [= <-]. reflexivity.
Qed.

Lemma untyped_relation_of_edge edge :
  (forall v, untyped (escape_html_tags_or_none v)) ->
  untyped (relation_of_edge edge).
Proof.
  intros Hesc. unfold relation_of_edge.
  repeat (apply untyped_bind;
          [first [ apply untyped_getitem
                 | apply untyped_bind;
                   [apply untyped_getitem | intros ?; apply Hesc] ]
          | intros ?]).
  apply untyped_TitleRelation_new.
Qed.

Lemma untyped_mapM {A B : Type} (f : A -> result B) (l : list A) :
  (forall x, untyped (f x)) -> untyped (mapM f l).
Proof.
  intros Hf. induction l as [|x l IH].
  - intros e. discriminate.
  - cbn. apply untyped_bind; [apply Hf|]. intros y.
    apply untyped_bind; [exact IH|]. intros k e. discriminate.
Qed.

(** X4: when the escaping helper raises neither of the client's errors,
    the three lookups with a status check raise [TitleNotFound] for an
    answer with status 404 only, and [ServerError] for an answer with a
    status of 500 or more only, with the text of that answer. *)
Theorem typed_errors_only_from_status (e : exn) (w : World) :
  (forall v, untyped (escape_html_tags_or_none v)) ->
  is_typed_error e = true ->
  (forall name tf,
      fst (title_preview_by_name name tf w) = Raise e ->
      exists f response,
        tf = Some f /\
        upstream (request_by_name name f) = Responded response /\
        (status response = 404 /\
         e = TitleNotFound "Title with this name not found!" \/
         500 <= status response /\ e = ServerError (text response))) /\
  (forall title_id tf,
      fst (title_preview_by_id title_id tf w) = Raise e ->
      exists f response,
        tf = Some f /\
        upstream (request_by_id title_id f) = Responded response /\
        (status response = 404 /\
         e = TitleNotFound "Title with this name not found!" \/
         500 <= status response /\ e = ServerError (text response))) /\
  (forall id,
      fst (title_relations_by_id id w) = Raise e ->
      exists response,
        upstream (request_relations_by_id id) = Responded response /\
        (status response = 404 /\
         e = TitleNotFound "Title with this id not found!" \/
         500 <= status response /\ e = ServerError (text response))).
Proof.
  intros Hesc Htyped.
  assert (Hno : forall {A : Type} (r : result A),
             untyped r -> r = Raise e -> False).
  { intros A r Hr He. apply Hr in He. congruence. }
  split; [|split].
  - intros name [f|] He; [|injection He as <-; discriminate].
    destruct (upstream (request_by_name name f)) as [response|] eqn:Hup.
    + exists f, response. split; [reflexivity|]. split; [exact Hup|].
      rewrite (title_preview_by_name_outcome _ _ _ _ Hup) in He.
      destruct (500 <=? status response) eqn:H5;
        [|destruct (status response =? 404) eqn:H4].
      * right. apply Z.leb_le in H5. split; [exact H5|]. congruence.
      * left. apply Z.eqb_eq in H4. split; [exact H4|]. congruence.
      * exfalso. eapply Hno; [|exact He].
        apply untyped_bind; [apply untyped_decoded|]. intros body.
        apply untyped_bind; [apply untyped_getpath|]. intros data.
        apply untyped_preview_with; [exact Hesc | apply untyped_getitem].
    + rewrite (title_preview_by_name_transport _ _ _ Hup) in He.
      injection He as <-. discriminate.
  - intros title_id [f|] He; [|injection He as <-; discriminate].
    destruct (upstream (request_by_id title_id f)) as [response|] eqn:Hup.
    + exists f, response. split; [reflexivity|]. split; [exact Hup|].
      rewrite (title_preview_by_id_outcome _ _ _ _ Hup) in He.
      destruct (500 <=? status response) eqn:H5;
        [|destruct (status response =? 404) eqn:H4].
      * right. apply Z.leb_le in H5. split; [exact H5|]. congruence.
      * left. apply Z.eqb_eq in H4. split; [exact H4|]. congruence.
      * exfalso. eapply Hno; [|exact He].
        apply untyped_bind; [apply untyped_decoded|]. intros body.
        apply untyped_bind; [apply untyped_getpath|]. intros data.
        apply untyped_preview_with; [exact Hesc|]. intros x. discriminate.
    + rewrite (title_preview_by_id_transport _ _ _ Hup) in He.
      injection He as <-. discriminate.
  - intros id He.
    destruct (upstream (request_relations_by_id id)) as [response|] eqn:Hup.
    + exists response. split; [reflexivity|].
      rewrite (title_relations_by_id_outcome _ _ _ Hup) in He.
      destruct (500 <=? status response) eqn:H5;
        [|destruct (status response =? 404) eqn:H4].
      * right. apply Z.leb_le in H5. split; [exact H5|]. congruence.
      * left. apply Z.eqb_eq in H4. split; [exact H4|]. congruence.
      * exfalso. eapply Hno; [|exact He].
        apply untyped_bind; [apply untyped_decoded|]. intros body.
        apply untyped_bind; [apply untyped_getpath|]. intros edges.
        apply untyped_bind; [apply untyped_iter|]. intros items.
        apply untyped_mapM. intros edge.
        apply untyped_relation_of_edge. exact Hesc.
    + rewrite (title_relations_by_id_transport _ _ Hup) in He.
      injection He as <-. discriminate.
Qed.

(** ** Answers that are not of the expected shape *)

(** X5: an answer with a status below 500 that holds [null] for [data],
    as an answer with errors does, or [null] for the record asked for,
    makes a query raise [TypeError], not [TitleNotFound]: the three
    lookups when the status is not 404, the paged search for any such
    status. *)
Theorem null_data_raises_type_error (w : World) response body :
  status response < 500 ->
  body_json response = Some body ->
  (getpath body ["data"] = Ok JNull \/
   getpath body ["data"; "Media"] = Ok JNull ->
   status response <> 404 ->
   (forall name f,
       upstream (request_by_name name f) = Responded response ->
       fst (title_preview_by_name name (Some f) w) = Raise TypeError) /\
   (forall title_id f,
       upstream (request_by_id title_id f) = Responded response ->
       fst (title_preview_by_id title_id (Some f) w) = Raise TypeError) /\
   (forall id,
       upstream (request_relations_by_id id) = Responded response ->
       fst (title_relations_by_id id w) = Raise TypeError)) /\
  (getpath body ["data"] = Ok JNull \/
   getpath body ["data"; "Page"] = Ok JNull ->
   forall page name f,
     upstream (request_page_by_name page name f) = Responded response ->
     fst (title_preview_page_by_name page name (Some f) w) = Raise TypeError).
Proof.
  intros Hlt Hbody.
  assert (Hfirst : forall {A : Type} key (k : json -> result A),
             getpath body ["data"] = Ok JNull \/
             getpath body ["data"; key] = Ok JNull ->
             k JNull = Raise TypeError ->
             (body ← decoded response;
              data ← getpath body ["data"; key];
              k data) = Raise TypeError).
  { intros A key k Hnull Hk. unfold decoded, getpath in *. rewrite Hbody.
    cbn [foldl mbind result_bind] in *.
    destruct (getitem body "data") as [d|e0]; cbn [mbind result_bind] in *.
    - destruct Hnull as [Hnull|Hnull].
      + injection Hnull as ->. reflexivity.
      + rewrite Hnull. exact Hk.
    - destruct Hnull; discriminate. }
  split.
  - intros Hnull Hne. split; [|split].
    + intros name f Hup.
      rewrite (title_preview_by_name_answer _ _ _ _ Hup Hlt Hne).
      apply Hfirst; [exact Hnull | reflexivity].
    + intros title_id f Hup.
      rewrite (title_preview_by_id_answer _ _ _ _ Hup Hlt Hne).
      apply Hfirst; [exact Hnull | reflexivity].
    + intros id Hup.
      rewrite (title_relations_by_id_answer _ _ _ Hup Hlt Hne).
      clear Hfirst. unfold decoded, getpath in *. rewrite Hbody.
      cbn [foldl mbind result_bind] in *.
      destruct (getitem body "data") as [d|e0]; cbn [mbind result_bind] in *.
      * destruct Hnull as [Hnull|Hnull].
        -- injection Hnull as ->. reflexivity.
        -- rewrite Hnull. reflexivity.
      * destruct Hnull; discriminate.
  - intros Hnull page name f Hup.
    rewrite (title_preview_page_by_name_answer _ _ _ _ _ Hup Hlt).
    clear Hfirst. unfold decoded, getpath in *. rewrite Hbody.
    cbn [foldl mbind result_bind] in *.
    destruct (getitem body "data") as [d|e0]; cbn [mbind result_bind] in *.
    + destruct Hnull as [Hnull|Hnull].
      * injection Hnull as ->. reflexivity.
      * rewrite Hnull. reflexivity.
    + destruct Hnull; discriminate.
Qed.

Lemma mapM_result_first_error {A B : Type} (f : A -> result B)
    (good : list A) (bad : A) (rest : list A) (ys : list B) (e : exn) :
  Forall2 (fun x y => f x = Ok y) good ys ->
  f bad = Raise e ->
  mapM f (good ++ bad :: rest) = Raise e.
Proof.
  intros Hgood Hbad. induction Hgood as [|x y good ys Hxy _ IH].
  - cbn. rewrite Hbad. reflexivity.
  - cbn. rewrite Hxy. cbn. rewrite IH. reflexivity.
Qed.

(** X6: the lookup of the relations returns all the records or none:
    when an edge cannot be made into a record, the query raises the
    error of the first such edge, however many edges before it were
    made into records. *)
Theorem relations_fail_on_first_bad_edge
    id w response body good bad rest rs e :
  upstream (request_relations_by_id id) = Responded response ->
  status response < 500 ->
  status response <> 404 ->
  body_json response = Some body ->
  getpath body ["data"; "Media"; "relations"; "edges"]
  = Ok (JList (good ++ bad :: rest)) ->
  Forall2 (fun edge r => relation_of_edge edge = Ok r) good rs ->
  relation_of_edge bad = Raise e ->
  fst (title_relations_by_id id w) = Raise e.
Proof.
  intros Hup Hlt Hne Hbody Hedges Hgood Hbad.
  rewrite (title_relations_by_id_answer _ _ _ Hup Hlt Hne).
  unfold decoded. rewrite Hbody. cbn [mbind result_bind].
  rewrite Hedges. cbn [mbind result_bind iter].
  eapply mapM_result_first_error; eauto.
Qed.

(** ** Answers of the expected shape *)

Lemma optional_str_validator_optional o :
  optional_str_validator (Media.optional o) = Some o.
Proof.
  destruct o as [x|]; cbn; [|reflexivity].
  rewrite str_validator_str. reflexivity.
Qed.

Lemma list_str_validator_strings (g : list string) :
  list_str_validator (JList (JStr <$> g)) = Some g.
Proof.
  cbn. induction g as [|x g IH]; [reflexivity|].
  cbn. rewrite str_validator_str. cbn. rewrite IH. reflexivity.
Qed.

Section WellFormed.
Variable esc : string -> string.
Hypothesis escape_text :
  forall x, escape_html_tags_or_none (JStr x) = Ok (JStr (esc x)).
Hypothesis escape_none : escape_html_tags_or_none JNull = Ok JNull.

Lemma escape_optional o :
  escape_html_tags_or_none (Media.optional o)
  = Ok (Media.optional (esc <$> o)).
Proof. destruct o as [x|]; cbn; auto. Qed.

Lemma TitlePreview_new_media i (m : Media.t) :
  TitlePreview.new (JInt i)
    (Media.optional (esc <$> Media.english m))
    (Media.optional (esc <$> Media.romaji m))
    (Media.optional (esc <$> Media.native m))
    (JStr (Media.format m)) (JStr (Media.siteUrl m))
    (Media.optional (Media.bannerImage m))
    (Media.optional (esc <$> Media.description m))
    (JList (JStr <$> Media.genres m))
  = Ok (Media.preview esc i m).
Proof.
  unfold TitlePreview.new.
  rewrite int_validator_int, !optional_str_validator_optional,
    !str_validator_str, list_str_validator_strings.
  reflexivity.
Qed.

Lemma preview_with_media i (m : Media.t) :
  preview_with (Ok (JInt i)) (Media.to_json m) = Ok (Media.preview esc i m).
Proof.
  unfold preview_with.
  change (getitem (Media.to_json m) "title")
    with (Ok (JObj {[ "english" := Media.optional (Media.english m);
                      "romaji" := Media.optional (Media.romaji m);
                      "native" := Media.optional (Media.native m) ]})).
  cbn [mbind result_bind].
  match goal with |- context [getitem ?t "english"] =>
    change (getitem t "english") with (Ok (Media.optional (Media.english m)));
    change (getitem t "romaji") with (Ok (Media.optional (Media.romaji m)));
    change (getitem t "native") with (Ok (Media.optional (Media.native m)))
  end.
  change (getitem (Media.to_json m) "format") with (Ok (JStr (Media.format m))).
  change (getitem (Media.to_json m) "siteUrl")
    with (Ok (JStr (Media.siteUrl m))).
  change (getitem (Media.to_json m) "bannerImage")
    with (Ok (Media.optional (Media.bannerImage m))).
  change (getitem (Media.to_json m) "description")
    with (Ok (Media.optional (Media.description m))).
  change (getitem (Media.to_json m) "genres")
    with (Ok (JList (JStr <$> Media.genres m))).
  cbn [mbind result_bind]. rewrite !escape_optional.
  cbn [mbind result_bind]. apply TitlePreview_new_media.
Qed.

Lemma preview_of_media_media (m : Media.t) :
  preview_of_media (Media.to_json m) = Ok (Media.preview esc (Media.id m) m).
Proof.
  unfold preview_of_media.
  change (getitem (Media.to_json m) "id") with (Ok (JInt (Media.id m))).
  apply preview_with_media.
Qed.

End WellFormed.

Lemma preview_of_media_built data p :
  preview_of_media data = Ok p -> built_from data p.
Proof.
  unfold preview_of_media, preview_with. intros Hp.
  apply result_bind_Ok in Hp as (title & Htitle & Hp).
  apply result_bind_Ok in Hp as (a & Ha & Hp).
  apply result_bind_Ok in Hp as (b & Hb & Hp).
  apply result_bind_Ok in Hp as (c & Hc & Hp).
  apply result_bind_Ok in Hp as (d & Hd & Hp).
  apply result_bind_Ok in Hp as (e & He & Hp).
  apply result_bind_Ok in Hp as (f & Hf & Hp).
  apply result_bind_Ok in Hp as (g & Hg & Hp).
  apply result_bind_Ok in Hp as (h & Hh & Hp).
  apply result_bind_Ok in Hp as (i & Hi & Hp).
  apply TitlePreview_new_Ok in Hp
    as (Pa & Pb & Pc & Pd & Pe & Pf & Pg & Ph & Pi).
  apply result_bind_Ok in Hb as (b0 & Hb0 & Hb).
  apply result_bind_Ok in Hc as (c0 & Hc0 & Hc).
  apply result_bind_Ok in Hd as (d0 & Hd0 & Hd).
  apply result_bind_Ok in Hh as (h0 & Hh0 & Hh).
  exists title. split; [exact Htitle|].
  split; [exists a; auto|].
  split; [eapply escaped_from_intro; eauto|].
  split; [eapply escaped_from_intro; eauto|].
  split; [eapply escaped_from_intro; eauto|].
  split; [exists e; auto|].
  split; [exists f; auto|].
  split; [exists g; auto|].
  split; [eapply escaped_from_intro; eauto|].
  exists i. auto.
Qed.

(** ** The paged search *)

(** C5: in the paged search, on a response that passes the check of
    the status and holds a [media] list, an empty list makes the query
    raise [TitleNotFound].  A list with a first element makes the query
    end as the construction of the preview from that element does;
    what it returns is built from that element, field by field; and a
    first element with every field of its declared type is returned as
    its preview, names and description escaped, whatever follows it in
    the list. *)
Theorem page_lookup_empty_or_first page name f w response body l :
  upstream (request_page_by_name page name f) = Responded response ->
  status response < 500 ->
  body_json response = Some body ->
  getpath body ["data"; "Page"; "media"] = Ok (JList l) ->
  (l = [] ->
   fst (title_preview_page_by_name page name (Some f) w)
   = Raise (TitleNotFound "Title not found!")) /\
  (forall first rest, l = first :: rest ->
   fst (title_preview_page_by_name page name (Some f) w)
   = preview_of_media first /\
   (forall p, preview_of_media first = Ok p ->
     fst (title_preview_page_by_name page name (Some f) w) = Ok p) /\
   (forall p,
     fst (title_preview_page_by_name page name (Some f) w) = Ok p ->
     built_from first p) /\
   (forall (esc : string -> string) (m : Media.t),
     (forall x, escape_html_tags_or_none (JStr x) = Ok (JStr (esc x))) ->
     escape_html_tags_or_none JNull = Ok JNull ->
     first = Media.to_json m ->
     fst (title_preview_page_by_name page name (Some f) w)
     = Ok (Media.preview esc (Media.id m) m))).
Proof.
  intros Hup Hlt Hbody Hmedia.
  rewrite (title_preview_page_by_name_answer _ _ _ _ _ Hup Hlt).
  unfold decoded. rewrite Hbody. cbn [mbind result_bind].
  rewrite Hmedia. cbn [mbind result_bind]. split.
  - intros ->. reflexivity.
  - intros first rest ->. cbn [truthy getitem0 mbind result_bind].
    split; [reflexivity|]. split; [auto|]. split.
    + intros p Hp. apply preview_of_media_built. exact Hp.
    + intros esc m Htext Hnone ->.
      apply preview_of_media_media; assumption.
Qed.

Lemma relation_of_edge_media (esc : string -> string) (m : Media.t) rel :
  (forall x, escape_html_tags_or_none (JStr x) = Ok (JStr (esc x))) ->
  escape_html_tags_or_none JNull = Ok JNull ->
  relation_of_edge (edge_json (Media.to_json m) rel)
  = Ok (Media.relation esc m rel).
Proof.
  intros Htext Hnone. unfold relation_of_edge.
  change (getitem (edge_json (Media.to_json m) rel) "node")
    with (Ok (Media.to_json m)).
  change (getitem (edge_json (Media.to_json m) rel) "relationType")
    with (Ok (JStr rel)).
  cbn [mbind result_bind].
  change (getitem (Media.to_json m) "title")
    with (Ok (JObj {[ "english" := Media.optional (Media.english m);
                      "romaji" := Media.optional (Media.romaji m);
                      "native" := Media.optional (Media.native m) ]})).
  cbn [mbind result_bind].
  match goal with |- context [getitem ?t "english"] =>
    change (getitem t "english") with (Ok (Media.optional (Media.english m)));
    change (getitem t "romaji") with (Ok (Media.optional (Media.romaji m)));
    change (getitem t "native") with (Ok (Media.optional (Media.native m)))
  end.
  change (getitem (Media.to_json m) "id") with (Ok (JInt (Media.id m))).
  change (getitem (Media.to_json m) "format") with (Ok (JStr (Media.format m))).
  change (getitem (Media.to_json m) "siteUrl")
    with (Ok (JStr (Media.siteUrl m))).
  change (getitem (Media.to_json m) "bannerImage")
    with (Ok (Media.optional (Media.bannerImage m))).
  change (getitem (Media.to_json m) "description")
    with (Ok (Media.optional (Media.description m))).
  change (getitem (Media.to_json m) "genres")
    with (Ok (JList (JStr <$> Media.genres m))).
  cbn [mbind result_bind]. rewrite !(escape_optional esc Htext Hnone).
  cbn [mbind result_bind]. unfold TitleRelation.new.
  rewrite int_validator_int, !optional_str_validator_optional,
    !str_validator_str, list_str_validator_strings.
  reflexivity.
Qed.

(** X7: when the escaping helper turns a text into its escaped form
    and passes an absent one through, an answer that holds a [Media]
    record with every field of its declared type makes each lookup
    return the preview of that record: names and description escaped,
    format, link, banner and genres as they are, and for the id the
    record's (by name, by page) or the caller's (by id). *)
Theorem well_formed_media_is_returned
    (esc : string -> string) (m : Media.t) (w : World) response body :
  (forall x, escape_html_tags_or_none (JStr x) = Ok (JStr (esc x))) ->
  escape_html_tags_or_none JNull = Ok JNull ->
  status response < 500 ->
  body_json response = Some body ->
  (forall name f,
      upstream (request_by_name name f) = Responded response ->
      status response <> 404 ->
      getpath body ["data"; "Media"] = Ok (Media.to_json m) ->
      fst (title_preview_by_name name (Some f) w)
      = Ok (Media.preview esc (Media.id m) m)) /\
  (forall title_id f,
      upstream (request_by_id title_id f) = Responded response ->
      status response <> 404 ->
      getpath body ["data"; "Media"] = Ok (Media.to_json m) ->
      fst (title_preview_by_id title_id (Some f) w)
      = Ok (Media.preview esc title_id m)) /\
  (forall page name f rest,
      upstream (request_page_by_name page name f) = Responded response ->
      getpath body ["data"; "Page"; "media"]
      = Ok (JList (Media.to_json m :: rest)) ->
      fst (title_preview_page_by_name page name (Some f) w)
      = Ok (Media.preview esc (Media.id m) m)).
Proof.
  intros Htext Hnone Hlt Hbody. split; [|split].
  - intros name f Hup Hne Hmedia.
    rewrite (title_preview_by_name_answer _ _ _ _ Hup Hlt Hne).
    unfold decoded. rewrite Hbody. cbn [mbind result_bind].
    rewrite Hmedia. cbn [mbind result_bind].
    apply preview_of_media_media; assumption.
  - intros title_id f Hup Hne Hmedia.
    rewrite (title_preview_by_id_answer _ _ _ _ Hup Hlt Hne).
    unfold decoded. rewrite Hbody. cbn [mbind result_bind].
    rewrite Hmedia. cbn [mbind result_bind].
    apply preview_with_media; assumption.
  - intros page name f rest Hup Hmedia.
    rewrite (title_preview_page_by_name_answer _ _ _ _ _ Hup Hlt).
    unfold decoded. rewrite Hbody. cbn [mbind result_bind].
    rewrite Hmedia. cbn [mbind result_bind truthy getitem0].
    apply preview_of_media_media; assumption.
Qed.

(** X8: under the same condition on the escaping helper, an answer
    whose edges hold records with every field of its declared type
    makes the lookup of the relations return their relations in the
    order of the edges, the names escaped and each description as it
    is in the answer. *)
Theorem well_formed_edges_are_returned
    (esc : string -> string) (edges : list (Media.t * string))
    (w : World) id response body :
  (forall x, escape_html_tags_or_none (JStr x) = Ok (JStr (esc x))) ->
  escape_html_tags_or_none JNull = Ok JNull ->
  upstream (request_relations_by_id id) = Responded response ->
  status response < 500 ->
  status response <> 404 ->
  body_json response = Some body ->
  getpath body ["data"; "Media"; "relations"; "edges"]
  = Ok (JList ((fun e => edge_json (Media.to_json (fst e)) (snd e))
                 <$> edges)) ->
  fst (title_relations_by_id id w)
  = Ok ((fun e => Media.relation esc (fst e) (snd e)) <$> edges).
Proof.
  intros Htext Hnone Hup Hlt Hne Hbody Hedges.
  rewrite (title_relations_by_id_answer _ _ _ Hup Hlt Hne).
  unfold decoded. rewrite Hbody. cbn [mbind result_bind].
  rewrite Hedges. cbn [mbind result_bind iter].
  apply mapM_result_complete. apply Forall2_fmap, Forall_Forall2_diag.
  apply Forall_forall. intros [m rel] _. cbn [fst snd].
  apply relation_of_edge_media; assumption.
Qed.

(** ** What holds after any sequence of calls *)

Lemma tidy_initial : tidy initial_world.
Proof.
  split; [exact I|]. split; intros r s Hs; cbn in Hs; discriminate.
Qed.

Lemma tidy_renewed w :
  tidy w ->
  (forall r s, _session (self w) = Some r -> sessions w !! r = Some s ->
               closed s = true) ->
  tidy (renewed w).
Proof.
  intros (Hwf & Hopen & Htime) Hstale. split; [|split].
  - unfold wf. cbn. rewrite length_app. cbn. lia.
  - intros r s Hs Hc. cbn in Hs |- *.
    destruct (decide (r < length (sessions w))%nat) as [Hlt|Hge].
    + rewrite lookup_app_l in Hs by exact Hlt.
      pose proof (Hopen _ _ Hs Hc) as Hr.
      rewrite (Hstale _ _ Hr Hs) in Hc. discriminate.
    + apply lookup_lt_Some in Hs as Hlen. rewrite length_app in Hlen.
      cbn in Hlen. f_equal. lia.
  - intros r s Hs. cbn in Hs.
    apply lookup_app_Some in Hs as [Hs|[_ Hs]]; [eapply Htime; eauto|].
    destruct (r - length (sessions w))%nat; cbn in Hs; [|discriminate].
    injection Hs as <-. reflexivity.
Qed.

Lemma tidy_session w : tidy w -> tidy (snd (session w)).
Proof.
  intros Htidy. pose proof Htidy as (Hwf & _).
  pose proof (session_by_state w Hwf) as Hcase.
  destruct (_session (self w)) as [r|] eqn:Hr.
  - destruct Hcase as (s & Hs & Hrun). rewrite Hrun.
    destruct (closed s) eqn:Hc; cbn [snd]; [|exact Htidy].
    apply tidy_renewed; [exact Htidy|].
    intros r' s' Hr' Hs'. rewrite Hr in Hr'. injection Hr' as <-. congruence.
  - rewrite Hcase. cbn [snd]. apply tidy_renewed; [exact Htidy|].
    intros r' s' Hr'. rewrite Hr in Hr'. discriminate.
Qed.

Lemma tidy_sent req w : tidy w -> tidy (sent req w).
Proof.
  intros Htidy. destruct (sent_posted req w) as (r & _ & -> & _).
  apply tidy_session in Htidy. exact Htidy.
Qed.

Lemma tidy_closed_by r w : tidy w -> tidy (snd (ClientSession_close r w)).
Proof.
  intros (Hwf & Hopen & Htime). split; [|split].
  - apply wf_closed_by. exact Hwf.
  - intros r' s Hs Hc. cbn in Hs |- *.
    destruct (decide (r = r')) as [<-|Hne].
    + rewrite list_lookup_alter_eq in Hs.
      destruct (sessions w !! r) as [s0|]; cbn in Hs; [|discriminate].
      injection Hs as <-. discriminate.
    + rewrite list_lookup_alter_ne in Hs by exact Hne. eauto.
  - intros r' s Hs. cbn in Hs.
    destruct (decide (r = r')) as [<-|Hne].
    + rewrite list_lookup_alter_eq in Hs.
      destruct (sessions w !! r) as [s0|] eqn:Hs0; cbn in Hs; [|discriminate].
      injection Hs as <-. cbn. eauto.
    + rewrite list_lookup_alter_ne in Hs by exact Hne. eauto.
Qed.

Lemma tidy_close w : tidy w -> tidy (snd (close w)).
Proof.
  intros Htidy.
  destruct (close_run w) as [(r & s & _ & _ & _ & Hrun)|[_ Hrun]];
    rewrite Hrun; cbn [snd]; [|exact Htidy].
  apply (tidy_closed_by r w Htidy).
Qed.

Lemma exec_query c w :
  sends c = true -> exists req, exec w c = sent req w.
Proof.
  destruct c as [name [f|]|title_id [f|]|page name [f|]|id| |];
    try discriminate; intros _; cbn [exec].
  - destruct (title_preview_by_name_run name f) as [o Ho].
    rewrite Ho. eauto.
  - destruct (title_preview_by_id_run title_id f) as [o Ho].
    rewrite Ho. eauto.
  - destruct (title_preview_page_by_name_run page name f) as [o Ho].
    rewrite Ho. eauto.
  - destruct (title_relations_by_id_run id) as [o Ho].
    rewrite Ho. eauto.
Qed.

Lemma exec_other c w :
  sends c = false ->
  exec w c = w \/ exec w c = snd (close w) \/
  exists r, exec w c = snd (ClientSession_close r w).
Proof.
  destruct c as [name [f|]|title_id [f|]|page name [f|]|id| |r];
    try discriminate; intros _; cbn [exec]; eauto.
Qed.

Lemma tidy_exec c w : tidy w -> tidy (exec w c).
Proof.
  intros Htidy. destruct (sends c) eqn:Hc.
  - destruct (exec_query c w Hc) as [req ->]. apply tidy_sent. exact Htidy.
  - destruct (exec_other c w Hc) as [-> | [-> | [r ->]]].
    + exact Htidy.
    + apply tidy_close. exact Htidy.
    + apply tidy_closed_by. exact Htidy.
Qed.

Lemma close_post_count w :
  post_count (log (snd (close w))) = post_count (log w).
Proof.
  destruct (close_run w) as [(r & s & _ & _ & _ & ->)|[_ ->]]; cbn [snd log].
  - rewrite post_count_app. cbn [is_post]. lia.
  - reflexivity.
Qed.

Lemma exec_post_count c w :
  post_count (log (exec w c))
  = (post_count (log w) + (if sends c then 1 else 0))%nat.
Proof.
  destruct (sends c) eqn:Hc.
  - destruct (exec_query c w Hc) as [req ->].
    destruct (sent_posted req w) as (r & _ & _ & ->). lia.
  - destruct (exec_other c w Hc) as [-> | [-> | [r ->]]].
    + lia.
    + rewrite close_post_count. lia.
    + cbn [ClientSession_close snd log]. rewrite post_count_app.
      cbn [is_post]. lia.
Qed.

Lemma session_opened_count w :
  opened_count (log w) = length (sessions w) ->
  opened_count (log (snd (session w))) = length (sessions (snd (session w))).
Proof.
  intros Hw.
  destruct (session_cases w) as [(r & s & _ & _ & _ & ->)| ->]; cbn [snd].
  - exact Hw.
  - unfold renewed. cbn [log sessions]. rewrite opened_count_app, length_app.
    cbn. lia.
Qed.

Lemma exec_opened_count c w :
  opened_count (log w) = length (sessions w) ->
  opened_count (log (exec w c)) = length (sessions (exec w c)).
Proof.
  intros Hw. destruct (sends c) eqn:Hc.
  - destruct (exec_query c w Hc) as [req ->].
    destruct (sent_posted req w) as (r & _ & -> & _).
    unfold emit. cbn [snd log sessions]. rewrite opened_count_app.
    cbn [is_open_event]. rewrite Nat.add_0_r.
    apply session_opened_count. exact Hw.
  - assert (Hcl : forall r,
               opened_count (log (snd (ClientSession_close r w)))
               = length (sessions (snd (ClientSession_close r w)))).
    { intros r. cbn [ClientSession_close snd log sessions].
      rewrite opened_count_app, length_alter. cbn [is_open_event]. lia. }
    destruct (exec_other c w Hc) as [-> | [-> | [r ->]]].
    + exact Hw.
    + destruct (close_run w) as [(r & s & _ & _ & _ & Hrun)|[_ Hrun]].
      * specialize (Hcl r). unfold ClientSession_close in Hcl.
        rewrite Hrun. exact Hcl.
      * rewrite Hrun. exact Hw.
    + apply Hcl.
Qed.

(** X9: after any sequence of queries, closes by the client and closes
    by other holders on a new client: the client's reference points to
    a session object; at most one session object is open, the one the
    client holds; every session object has a total timeout of 60; every
    session object was created by the client; and as many requests were
    posted as queries were given a format. *)
Theorem client_invariants (calls : list call) :
  wf (history calls) /\
  (forall r s,
      sessions (history calls) !! r = Some s -> closed s = false ->
      _session (self (history calls)) = Some r) /\
  (forall r r' s s',
      sessions (history calls) !! r = Some s -> closed s = false ->
      sessions (history calls) !! r' = Some s' -> closed s' = false ->
      r = r') /\
  (forall r s,
      sessions (history calls) !! r = Some s -> timeout_total s = 60) /\
  opened_count (log (history calls)) = length (sessions (history calls)) /\
  post_count (log (history calls)) = length (List.filter sends calls).
Proof.
  assert (Htidy : tidy (history calls)).
  { unfold history. induction calls as [|c calls IH] using rev_ind.
    - exact tidy_initial.
    - rewrite foldl_app. cbn [foldl]. apply tidy_exec. exact IH. }
  assert (Hopened : opened_count (log (history calls))
                    = length (sessions (history calls))).
  { clear Htidy. unfold history.
    induction calls as [|c calls IH] using rev_ind.
    - reflexivity.
    - rewrite foldl_app. cbn [foldl]. apply exec_opened_count. exact IH. }
  assert (Hposts : post_count (log (history calls))
                   = length (List.filter sends calls)).
  { clear Htidy Hopened. unfold history.
    induction calls as [|c calls IH] using rev_ind.
    - reflexivity.
    - rewrite foldl_app. cbn [foldl]. rewrite exec_post_count, IH.
      rewrite List.filter_app, length_app. cbn [List.filter].
      destruct (sends c); cbn; lia. }
  destruct Htidy as (Hwf & Hopen & Htime).
  split; [exact Hwf|]. split; [exact Hopen|].
  split; [|split; [exact Htime|split; [exact Hopened | exact Hposts]]].
  intros r r' s s' Hs Hc Hs' Hc'.
  pose proof (Hopen _ _ Hs Hc) as Hr.
  pose proof (Hopen _ _ Hs' Hc') as Hr'. congruence.
Qed.

(** ** A query after a close *)

Lemma close_leaves_closed w r s :
  _session (self (snd (close w))) = Some r ->
  sessions (snd (close w)) !! r = Some s ->
  closed s = true.
Proof.
  destruct (close_run w) as [(r0 & s0 & Hr0 & Hs0 & _ & ->)|[Hall ->]];
    cbn [snd self sessions].
  - intros Hr Hs. rewrite Hr0 in Hr. injection Hr as <-.
    rewrite list_lookup_alter_eq, Hs0 in Hs. injection Hs as <-. reflexivity.
  - apply Hall.
Qed.

Lemma close_keeps w :
  self (snd (close w)) = self w /\
  length (sessions (snd (close w))) = length (sessions w).
Proof.
  destruct (close_run w) as [(r0 & s0 & _ & _ & _ & ->)|[_ ->]];
    cbn [snd self sessions]; [|auto].
  rewrite length_alter. auto.
Qed.

(** X10: [close] does not disable the client: the query that follows a
    close creates a new session object, open, and stores it, and the
    object the client held before is closed. *)
Theorem query_reopens_after_close (w : World) (c : call) :
  wf w ->
  sends c = true ->
  _session (self (exec (snd (close w)) c)) = Some (length (sessions w)) /\
  sessions (exec (snd (close w)) c) !! length (sessions w)
  = Some {| closed := false; timeout_total := 60 |} /\
  (forall r, _session (self w) = Some r ->
     exists s, sessions (exec (snd (close w)) c) !! r = Some s /\
               closed s = true).
Proof.
  intros Hwf Hsends.
  destruct (exec_query c (snd (close w)) Hsends) as [req ->].
  destruct (sent_posted req (snd (close w))) as (r1 & _ & -> & _).
  unfold emit. cbn [snd self sessions].
  destruct (close_keeps w) as [Hself Hlen].
  assert (Hrun : session (snd (close w))
                 = (Ok (length (sessions w)), renewed (snd (close w)))).
  { pose proof (session_by_state _ (wf_close w Hwf)) as Hcase.
    destruct (_session (self (snd (close w)))) as [r|] eqn:Hr.
    - destruct Hcase as (s & Hs & Hrun).
      rewrite (close_leaves_closed w r s Hr Hs) in Hrun.
      rewrite Hrun, Hlen. reflexivity.
    - rewrite Hcase, Hlen. reflexivity. }
  rewrite Hrun. cbn [snd]. split; [|split].
  - cbn. rewrite Hlen. reflexivity.
  - rewrite <- Hlen. apply renewed_open.
  - intros r Hr. unfold wf in Hwf. rewrite Hr in Hwf.
    destruct (lookup_lt_is_Some_2 _ _ Hwf) as [s Hs].
    assert (Hr' : _session (self (snd (close w))) = Some r)
      by (rewrite Hself; exact Hr).
    assert (Hlt : (r < length (sessions (snd (close w))))%nat)
      by (rewrite Hlen; exact Hwf).
    destruct (lookup_lt_is_Some_2 _ _ Hlt) as [s' Hs'].
    exists s'. split.
    + cbn. rewrite lookup_app_l by exact Hlt. exact Hs'.
    + eapply close_leaves_closed; eauto.
Qed.

End Client.

(** ** The client at work on sample responses *)

Local Abbreviation by_name :=
  (@title_preview_by_name pydantic_strict escape_html_tags_or_none_model).
Local Abbreviation by_id :=
  (@title_preview_by_id pydantic_strict escape_html_tags_or_none_model).
Local Abbreviation page_by_name :=
  (@title_preview_page_by_name pydantic_strict
     escape_html_tags_or_none_model).
Local Abbreviation relations_by_id :=
  (@title_relations_by_id pydantic_strict escape_html_tags_or_none_model).

Lemma untyped_escape_model v : untyped (escape_html_tags_or_none_model v).
Proof. intros e. destruct v; intros [= <-]; reflexivity. Qed.

Lemma server_error_on_5xx_witness :
  500 <= status unavailable /\
  fst (by_name (always unavailable) "Berserk" (Some manga) initial_world)
  = Raise (ServerError "Service Unavailable") /\
  fst (by_id (always unavailable) 30002 (Some manga) initial_world)
  = Raise (ServerError "Service Unavailable") /\
  fst (page_by_name (always unavailable) 1 "Berserk" (Some manga)
         initial_world)
  = Raise (ServerError "Service Unavailable") /\
  fst (relations_by_id (always unavailable) 30002 initial_world)
  = Raise (ServerError "Service Unavailable").
Proof.
  assert (Hstatus : 500 <= status unavailable) by (cbn; lia).
  destruct (@server_error_on_5xx pydantic_strict
              escape_html_tags_or_none_model (always unavailable)
              unavailable Hstatus) as (Ha & Hb & Hc & Hd).
  split; [exact Hstatus|].
  split; [apply Ha; reflexivity|].
  split; [apply Hb; reflexivity|].
  split; [apply Hc | apply Hd]; reflexivity.
Defined.

Lemma not_found_on_404_witness :
  status missing = 404 /\
  fst (by_name (always missing) "Berserk" (Some manga) initial_world)
  = Raise (TitleNotFound "Title with this name not found!") /\
  fst (by_id (always missing) 30002 (Some manga) initial_world)
  = Raise (TitleNotFound "Title with this name not found!") /\
  fst (relations_by_id (always missing) 30002 initial_world)
  = Raise (TitleNotFound "Title with this id not found!").
Proof.
  destruct (@not_found_on_404 pydantic_strict
              escape_html_tags_or_none_model (always missing)
              missing eq_refl) as (Ha & Hb & Hc).
  split; [reflexivity|].
  split; [apply Ha; reflexivity|].
  split; [apply Hb | apply Hc]; reflexivity.
Defined.

Lemma id_lookup_keeps_caller_id_witness :
  let body := media_body (media_json 7 (JStr "Berserk") JNull) in
  let p := sample_preview 99 (Some "Berserk") None in
  fst (by_id (always (ok_response body)) 99 (Some manga) initial_world)
  = Ok p /\
  TitlePreview.id p = 99.
Proof.
  intros body p.
  assert (Hrun : fst (by_id (always (ok_response body)) 99 (Some manga)
                        initial_world) = Ok p) by (vm_compute; reflexivity).
  split; [exact Hrun|].
  exact (@id_lookup_keeps_caller_id pydantic_strict
           escape_html_tags_or_none_model (always (ok_response body))
           99 (Some manga) initial_world p Hrun).
Defined.

Lemma name_lookup_id_from_response_witness :
  let body := media_body (media_json 7 (JStr "Berserk") JNull) in
  let p := sample_preview 7 (Some "Berserk") None in
  fst (by_name (always (ok_response body)) "Berserk" (Some manga)
         initial_world) = Ok p /\
  exists f response body' data idv,
    Some manga = Some f /\
    always (ok_response body) (request_by_name "Berserk" f)
    = Responded response /\
    body_json response = Some body' /\
    getpath body' ["data"; "Media"] = Ok data /\
    getitem data "id" = Ok idv /\
    @int_validator pydantic_strict idv = Some (TitlePreview.id p) /\
    (forall n, idv = JInt n -> TitlePreview.id p = n).
Proof.
  intros body p.
  assert (Hrun : fst (by_name (always (ok_response body)) "Berserk"
                        (Some manga) initial_world) = Ok p)
    by (vm_compute; reflexivity).
  split; [exact Hrun|].
  exact (@name_lookup_id_from_response pydantic_strict
           escape_html_tags_or_none_model (always (ok_response body))
           "Berserk" (Some manga) initial_world p Hrun).
Defined.

Lemma page_lookup_empty_or_first_witness :
  let first := Media.to_json berserk in
  let body := page_body (JList [first; JNull]) in
  let response := ok_response body in
  let p := Media.preview escape_html_tags 30002 berserk in
  always response (request_page_by_name 1 "Berserk" manga)
  = Responded response /\
  status response < 500 /\
  body_json response = Some body /\
  getpath body ["data"; "Page"; "media"] = Ok (JList [first; JNull]) /\
  (forall x, escape_html_tags_or_none_model (JStr x)
             = Ok (JStr (escape_html_tags x))) /\
  escape_html_tags_or_none_model JNull = Ok JNull /\
  fst (page_by_name (always response) 1 "Berserk" (Some manga)
         initial_world) = Ok p /\
  @built_from pydantic_strict escape_html_tags_or_none_model first p /\
  TitlePreview.id p = 30002 /\
  TitlePreview.english_name p = Some "Berserk &lt;Deluxe&gt;" /\
  TitlePreview.description p = Some "Guts &amp; &lt;i&gt;Griffith&lt;/i&gt;" /\
  TitlePreview.url p = "https://anilist.co/manga/30002?a=1&b=2".
Proof.
  intros first body response p.
  assert (Hlt : status response < 500) by (cbn; lia).
  assert (Hmedia : getpath body ["data"; "Page"; "media"]
                   = Ok (JList [first; JNull])) by (vm_compute; reflexivity).
  destruct (@page_lookup_empty_or_first pydantic_strict
              escape_html_tags_or_none_model (always response)
              1 "Berserk" manga initial_world response body [first; JNull]
              eq_refl Hlt eq_refl Hmedia) as [_ Hfirst].
  destruct (Hfirst first [JNull] eq_refl) as (_ & _ & Hbuilt & Hreturned).
  assert (Hrun : fst (page_by_name (always response) 1 "Berserk" (Some manga)
                        initial_world) = Ok p)
    by exact (Hreturned escape_html_tags berserk (fun x => eq_refl) eq_refl
                eq_refl).
  do 6 (split; [first [reflexivity | assumption]|]).
  split; [exact Hrun|]. split; [exact (Hbuilt p Hrun)|].
  repeat split.
Defined.

Lemma page_lookup_has_no_404_check_witness :
  let first := media_json 7 (JStr "Berserk") JNull in
  let response := response_of 404 (page_body (JList [first])) in
  always response (request_page_by_name 1 "Berserk" manga)
  = Responded response /\
  status response < 500 /\
  (forall v, untyped (escape_html_tags_or_none_model v)) /\
  fst (page_by_name (always response) 1 "Berserk" (Some manga)
         initial_world)
  = Ok (sample_preview 7 (Some "Berserk") None) /\
  ((exists msg,
       fst (page_by_name (always response) 1 "Berserk" (Some manga)
              initial_world) = Raise (TitleNotFound msg)) <->
   [first] = []).
Proof.
  intros first response.
  assert (Hlt : status response < 500) by (cbn; lia).
  destruct (@page_lookup_has_no_404_check pydantic_strict
              escape_html_tags_or_none_model (always response)
              1 "Berserk" manga initial_world response
              eq_refl Hlt untyped_escape_model)
    as (Hrun & _ & _ & _ & Hlist & _).
  split; [reflexivity|]. split; [exact Hlt|].
  split; [exact untyped_escape_model|]. split.
  - rewrite Hrun. vm_compute. reflexivity.
  - apply (Hlist (page_body (JList [first])) [first]).
    + reflexivity.
    + vm_compute. reflexivity.
Defined.


Lemma session_created_lazily_and_reused_witness :
  session initial_world = (Ok 0%nat, world_with_open_session) /\
  session world_with_open_session = (Ok 0%nat, world_with_open_session) /\
  session world_with_closed_session
  = (Ok 1%nat, renewed world_with_closed_session) /\
  after [Access; ClosedByOther 0%nat] = world_with_closed_session /\
  fst (session (after [Access; ClosedByOther 0%nat; Access; Close]))
  = Ok 2%nat.
Proof.
  destruct session_created_lazily_and_reused
    as (Hfirst & _ & Hreuse & Hstale & _ & _ & Hafter).
  split; [exact Hfirst|]. split; [|split; [|split]].
  - apply (Hreuse world_with_open_session 0%nat
             {| closed := false; timeout_total := 60 |});
      reflexivity.
  - apply (Hstale world_with_closed_session 0%nat
             {| closed := true; timeout_total := 60 |});
      reflexivity.
  - reflexivity.
  - specialize (Hafter [Access; ClosedByOther 0%nat; Access; Close]).
    assert (Hr : _session (self (after [Access; ClosedByOther 0%nat;
                                         Access; Close])) = Some 1%nat)
      by reflexivity.
    rewrite Hr in Hafter. destruct Hafter as (s & Hs & Hrun).
    rewrite Hrun. vm_compute in Hs. injection Hs as <-. reflexivity.
Defined.

Lemma close_idempotent_witness :
  _session (self initial_world) = None /\
  close initial_world = (Ok tt, initial_world) /\
  close (snd (close world_with_open_session))
  = (Ok tt, snd (close world_with_open_session)) /\
  close_count (log (snd (close (snd (close world_with_open_session)))))
  = 1%nat.
Proof.
  destruct (close_idempotent initial_world) as (_ & Hnever & _).
  destruct (close_idempotent world_with_open_session)
    as (_ & _ & Hagain & _ & Hcount).
  split; [reflexivity|]. split; [|split].
  - apply Hnever. reflexivity.
  - exact Hagain.
  - apply Nat.le_antisymm; [exact Hcount|]. vm_compute. apply le_n.
Defined.

(** ** The description of a relation *)

(** C1 (fails on the relations): on a response whose one edge has a
    description with markup, the lookup of the relations returns the
    names escaped and the description as it came, where the lookup by
    name escapes the same description. *)
Theorem relation_description_not_escaped :
  let media := media_json 7 (JStr "Tom & Jerry") (JStr "<b>bold</b>") in
  fst (relations_by_id
         (always (ok_response (relations_body [edge_json media "SEQUEL"])))
         1 initial_world)
  = Ok [sample_relation 7 (Some "Tom &amp; Jerry") (Some "<b>bold</b>")
          "SEQUEL"] /\
  fst (by_name (always (ok_response (media_body media)))
         "Tom" (Some manga) initial_world)
  = Ok (sample_preview 7 (Some "Tom &amp; Jerry")
          (Some "&lt;b&gt;bold&lt;/b&gt;")) /\
  escape_html_tags_or_none_model (JStr "<b>bold</b>")
  = Ok (JStr "&lt;b&gt;bold&lt;/b&gt;").
Proof.
  intros media. repeat split; vm_compute; reflexivity.
Qed.

(** ** The greeting *)

Lemma chars_app s t :
  Introduction.chars (s ++ t) = (Introduction.chars s ++ Introduction.chars t)%list.
Proof.
  unfold Introduction.chars. induction s as [|c s IH]; [reflexivity|].
  change (list_ascii_of_string (String c s ++ t))
    with (c :: list_ascii_of_string (s ++ t)).
  rewrite IH. reflexivity.
Qed.

Lemma chars_replace c by_ s x :
  In x (Introduction.chars (Introduction.replace c by_ s)) ->
  In x (Introduction.chars by_) \/ In x (Introduction.chars s) /\ x <> c.
Proof.
  induction s as [|y s IH]; [cbn; tauto|].
  change (Introduction.replace c by_ (String y s))
    with ((if Ascii.eqb y c then by_ else String y "")
          ++ Introduction.replace c by_ s).
  rewrite chars_app. intros Hin. apply in_app_or in Hin as [Hin|Hin].
  - destruct (Ascii.eqb_spec y c) as [->|Hne]; [left; exact Hin|].
    destruct Hin as [<-|[]]. right. split; [left; reflexivity|].
    exact Hne.
  - destruct (IH Hin) as [Hby|[Hs Hne]]; [left; exact Hby|].
    right. split; [right; exact Hs | exact Hne].
Qed.

Lemma replace_absent c by_ s :
  ~ In c (Introduction.chars s) -> Introduction.replace c by_ s = s.
Proof.
  induction s as [|y s IH]; cbn; [reflexivity|]. intros Hnot.
  destruct (Ascii.eqb_spec y c) as [->|Hne]; [exfalso; apply Hnot; auto|].
  cbn. rewrite IH; [reflexivity|]. intros Hin. apply Hnot. auto.
Qed.

Lemma quote_no_markup s :
  ~ In "<"%char (Introduction.chars (Introduction.quote s)) /\
  ~ In ">"%char (Introduction.chars (Introduction.quote s)).
Proof.
  unfold Introduction.quote. split; intros Hin.
  - apply chars_replace in Hin as [Hin|[Hin _]].
    + cbn in Hin. intuition discriminate.
    + apply chars_replace in Hin as [Hin|[_ Hne]].
      * cbn in Hin. intuition discriminate.
      * apply Hne. reflexivity.
  - apply chars_replace in Hin as [Hin|[_ Hne]].
    + cbn in Hin. intuition discriminate.
    + apply Hne. reflexivity.
Qed.

(** X11: the greeting sends one answer, to be rendered as HTML, whose
    text holds no [<] and no [>] whatever the first name of the user;
    a first name without [&], [<] and [>] appears in it as it is; and
    a message without a user makes the handler raise before anything
    is sent. *)
Theorem greeting_has_no_markup
    (m : Introduction.Message) (answers : list Introduction.Answer) :
  (Introduction.from_user m = None ->
   Introduction.start_cmd m answers = (Raise AttributeError, answers)) /\
  (forall user,
      Introduction.from_user m = Some user ->
      exists a,
        Introduction.start_cmd m answers = (Ok tt, (answers ++ [a])%list) /\
        Introduction.parse_mode a = "HTML" /\
        ~ In "<"%char (Introduction.chars (Introduction.text a)) /\
        ~ In ">"%char (Introduction.chars (Introduction.text a)) /\
        ((forall c, In c (Introduction.chars (Introduction.first_name user)) ->
                    c <> "&"%char /\ c <> "<"%char /\ c <> ">"%char) ->
         exists rest,
           Introduction.text a
           = "Hello, " ++ Introduction.first_name user ++ "!" ++ rest)).
Proof.
  split.
  - intros Hnone. unfold Introduction.start_cmd. rewrite Hnone. reflexivity.
  - intros user Huser. unfold Introduction.start_cmd. rewrite Huser.
    eexists. split; [reflexivity|]. cbn [Introduction.parse_mode
                                          Introduction.text].
    destruct (quote_no_markup (Introduction.first_name user)) as [Hlt Hgt].
    split; [reflexivity|]. split; [|split].
    + rewrite !chars_app. intros Hin.
      repeat (apply in_app_or in Hin as [Hin|Hin]);
        first [exact (Hlt Hin) | cbn in Hin; intuition discriminate].
    + rewrite !chars_app. intros Hin.
      repeat (apply in_app_or in Hin as [Hin|Hin]);
        first [exact (Hgt Hin) | cbn in Hin; intuition discriminate].
    + intros Hplain. eexists. unfold Introduction.quote.
      rewrite (replace_absent "&"), (replace_absent "<"), (replace_absent ">");
        [reflexivity| | |]; intros Hin; apply Hplain in Hin; tauto.
Qed.

(** ** The further properties at work on sample answers *)

Lemma transport_failure_propagates_witness :
  let down : Request -> PostOutcome := fun _ => TransportFailure in
  fst (by_name down "Berserk" (Some manga) initial_world)
  = Raise ClientConnectionError /\
  fst (by_id down 30002 (Some manga) initial_world)
  = Raise ClientConnectionError /\
  fst (page_by_name down 1 "Berserk" (Some manga) initial_world)
  = Raise ClientConnectionError /\
  fst (relations_by_id down 30002 initial_world)
  = Raise ClientConnectionError.
Proof.
  intros down.
  destruct (@transport_failure_propagates pydantic_strict
              escape_html_tags_or_none_model down initial_world)
    as (Ha & Hb & Hc & Hd).
  split; [apply Ha; reflexivity|].
  split; [apply Hb; reflexivity|].
  split; [apply Hc | apply Hd]; reflexivity.
Defined.

Lemma typed_errors_only_from_status_witness :
  let e := TitleNotFound "Title with this name not found!" in
  (forall v, untyped (escape_html_tags_or_none_model v)) /\
  is_typed_error e = true /\
  fst (by_name (always missing) "Berserk" (Some manga) initial_world)
  = Raise e /\
  exists f response,
    Some manga = Some f /\
    always missing (request_by_name "Berserk" f) = Responded response /\
    (status response = 404 /\
     e = TitleNotFound "Title with this name not found!" \/
     500 <= status response /\ e = ServerError (text response)).
Proof.
  intros e.
  destruct (@typed_errors_only_from_status pydantic_strict
              escape_html_tags_or_none_model (always missing) e
              initial_world untyped_escape_model eq_refl) as (Ha & _).
  split; [exact untyped_escape_model|]. split; [reflexivity|].
  split; [reflexivity|].
  apply (Ha "Berserk" (Some manga)). reflexivity.
Defined.

Lemma null_data_raises_type_error_witness :
  let body := JObj {[ "errors" := JList [JStr "Too Many Requests."];
                      "data" := JNull ]} in
  let response := response_of 429 body in
  status response < 500 /\
  body_json response = Some body /\
  getpath body ["data"] = Ok JNull /\
  status response <> 404 /\
  fst (by_name (always response) "Berserk" (Some manga) initial_world)
  = Raise TypeError /\
  fst (by_id (always response) 30002 (Some manga) initial_world)
  = Raise TypeError /\
  fst (relations_by_id (always response) 30002 initial_world)
  = Raise TypeError /\
  fst (page_by_name (always response) 1 "Berserk" (Some manga) initial_world)
  = Raise TypeError.
Proof.
  intros body response.
  assert (Hlt : status response < 500) by (cbn; lia).
  assert (Hne : status response <> 404) by (cbn; lia).
  assert (Hdata : getpath body ["data"] = Ok JNull)
    by (vm_compute; reflexivity).
  destruct (@null_data_raises_type_error pydantic_strict
              escape_html_tags_or_none_model (always response)
              initial_world response body Hlt eq_refl)
    as (Hlookups & Hpage).
  destruct (Hlookups (or_introl Hdata) Hne) as (Ha & Hb & Hc).
  do 4 (split; [first [reflexivity | assumption]|]).
  split; [apply Ha; reflexivity|].
  split; [apply Hb; reflexivity|].
  split; [apply Hc; reflexivity|].
  apply (Hpage (or_introl Hdata)). reflexivity.
Defined.

Lemma relations_fail_on_first_bad_edge_witness :
  let good := [edge_json (Media.to_json berserk) "SEQUEL"] in
  let bad := JObj ∅ in
  let rest := [edge_json (Media.to_json berserk) "ADAPTATION"] in
  let body := relations_body (good ++ bad :: rest) in
  let response := ok_response body in
  let rs := [Media.relation escape_html_tags berserk "SEQUEL"] in
  always response (request_relations_by_id 1) = Responded response /\
  status response < 500 /\
  status response <> 404 /\
  body_json response = Some body /\
  getpath body ["data"; "Media"; "relations"; "edges"]
  = Ok (JList (good ++ bad :: rest)) /\
  Forall2
    (fun edge r =>
       @relation_of_edge pydantic_strict escape_html_tags_or_none_model edge
       = Ok r) good rs /\
  @relation_of_edge pydantic_strict escape_html_tags_or_none_model bad
  = Raise (KeyError (KeyStr "node")) /\
  fst (relations_by_id (always response) 1 initial_world)
  = Raise (KeyError (KeyStr "node")).
Proof.
  intros good bad rest body response rs.
  assert (Hlt : status response < 500) by (cbn; lia).
  assert (Hne : status response <> 404) by (cbn; lia).
  assert (Hedges : getpath body ["data"; "Media"; "relations"; "edges"]
                   = Ok (JList (good ++ bad :: rest)))
    by (vm_compute; reflexivity).
  assert (Hgood : Forall2
                    (fun edge r =>
                       @relation_of_edge pydantic_strict
                         escape_html_tags_or_none_model edge = Ok r)
                    good rs)
    by (repeat constructor; vm_compute; reflexivity).
  assert (Hbad : @relation_of_edge pydantic_strict
                   escape_html_tags_or_none_model bad
                 = Raise (KeyError (KeyStr "node")))
    by (vm_compute; reflexivity).
  repeat (split; [first [reflexivity | assumption]|]).
  exact (@relations_fail_on_first_bad_edge pydantic_strict
           escape_html_tags_or_none_model (always response) 1 initial_world
           response body good bad rest rs _ eq_refl Hlt Hne eq_refl
           Hedges Hgood Hbad).
Defined.

Lemma well_formed_media_is_returned_witness :
  let body := media_body (Media.to_json berserk) in
  let response := ok_response body in
  (forall x, escape_html_tags_or_none_model (JStr x)
             = Ok (JStr (escape_html_tags x))) /\
  escape_html_tags_or_none_model JNull = Ok JNull /\
  status response < 500 /\
  body_json response = Some body /\
  status response <> 404 /\
  getpath body ["data"; "Media"] = Ok (Media.to_json berserk) /\
  fst (by_name (always response) "Berserk" (Some manga) initial_world)
  = Ok (Media.preview escape_html_tags 30002 berserk) /\
  fst (by_id (always response) 7 (Some manga) initial_world)
  = Ok (Media.preview escape_html_tags 7 berserk) /\
  TitlePreview.english_name (Media.preview escape_html_tags 30002 berserk)
  = Some "Berserk &lt;Deluxe&gt;" /\
  TitlePreview.url (Media.preview escape_html_tags 30002 berserk)
  = "https://anilist.co/manga/30002?a=1&b=2".
Proof.
  intros body response.
  assert (Hlt : status response < 500) by (cbn; lia).
  assert (Hne : status response <> 404) by (cbn; lia).
  assert (Hmedia : getpath body ["data"; "Media"]
                   = Ok (Media.to_json berserk)) by (vm_compute; reflexivity).
  destruct (@well_formed_media_is_returned pydantic_strict
              escape_html_tags_or_none_model (always response)
              escape_html_tags berserk initial_world response body
              (fun x => eq_refl) eq_refl Hlt eq_refl) as (Ha & Hb & _).
  do 6 (split; [first [reflexivity | assumption]|]).
  split; [exact (Ha "Berserk" manga eq_refl Hne Hmedia)|].
  split; [exact (Hb 7 manga eq_refl Hne Hmedia)|].
  split; reflexivity.
Defined.

Lemma well_formed_edges_are_returned_witness :
  let edges := [(berserk, "SEQUEL"); (berserk, "ADAPTATION")] in
  let body :=
    relations_body
      ((fun e => edge_json (Media.to_json (fst e)) (snd e)) <$> edges) in
  let response := ok_response body in
  (forall x, escape_html_tags_or_none_model (JStr x)
             = Ok (JStr (escape_html_tags x))) /\
  escape_html_tags_or_none_model JNull = Ok JNull /\
  always response (request_relations_by_id 1) = Responded response /\
  status response < 500 /\
  status response <> 404 /\
  body_json response = Some body /\
  getpath body ["data"; "Media"; "relations"; "edges"]
  = Ok (JList ((fun e => edge_json (Media.to_json (fst e)) (snd e))
                 <$> edges)) /\
  fst (relations_by_id (always response) 1 initial_world)
  = Ok [Media.relation escape_html_tags berserk "SEQUEL";
        Media.relation escape_html_tags berserk "ADAPTATION"].
Proof.
  intros edges body response.
  assert (Hlt : status response < 500) by (cbn; lia).
  assert (Hne : status response <> 404) by (cbn; lia).
  assert (Hedges : getpath body ["data"; "Media"; "relations"; "edges"]
                   = Ok (JList ((fun e => edge_json (Media.to_json (fst e))
                                             (snd e)) <$> edges)))
    by (vm_compute; reflexivity).
  repeat (split; [first [reflexivity | assumption]|]).
  exact (@well_formed_edges_are_returned pydantic_strict
           escape_html_tags_or_none_model (always response)
           escape_html_tags edges initial_world 1 response body
           (fun x => eq_refl) eq_refl eq_refl Hlt Hne eq_refl Hedges).
Defined.

Lemma client_invariants_witness :
  let calls :=
    [ByName "Berserk" (Some manga); CloseClient; ById 30002 None;
     RelationsById 30002; OtherCloses 1%nat; PageByName 1 "Berserk" (Some manga)]
  in
  let w := @history pydantic_strict escape_html_tags_or_none_model
             (always missing) calls in
  _session (self w) = Some 2%nat /\
  length (sessions w) = 3%nat /\
  post_count (log w) = 3%nat /\
  opened_count (log w) = 3%nat /\
  forall r s, sessions w !! r = Some s -> closed s = false -> r = 2%nat.
Proof.
  intros calls w.
  destruct (@client_invariants pydantic_strict escape_html_tags_or_none_model
              (always missing) calls)
    as (_ & Hopen & _ & _ & Hopened & Hposts).
  split; [reflexivity|]. split; [reflexivity|].
  split; [exact Hposts|]. split; [exact Hopened|].
  intros r s Hs Hc. pose proof (Hopen r s Hs Hc) as Hr.
  vm_compute in Hr. congruence.
Defined.

Lemma query_reopens_after_close_witness :
  let w := world_with_open_session in
  let c := RelationsById 30002 in
  let w' := @exec pydantic_strict escape_html_tags_or_none_model
              (always missing) (snd (close w)) c in
  wf w /\
  sends c = true /\
  _session (self w') = Some 1%nat /\
  sessions w' !! 1%nat = Some {| closed := false; timeout_total := 60 |} /\
  sessions w' !! 0%nat = Some {| closed := true; timeout_total := 60 |}.
Proof.
  intros w c w'.
  assert (Hwf : wf w) by (cbn; lia).
  destruct (@query_reopens_after_close pydantic_strict
              escape_html_tags_or_none_model (always missing) w c Hwf eq_refl)
    as (Hstored & Hnew & _).
  split; [exact Hwf|]. split; [reflexivity|].
  split; [exact Hstored|]. split; [exact Hnew|]. reflexivity.
Defined.

Lemma greeting_has_no_markup_witness :
  let m :=
    {| Introduction.from_user :=
         Some {| Introduction.first_name := "<b>Tom & Jerry</b>" |} |} in
  exists a,
    Introduction.start_cmd m [] = (Ok tt, [a]) /\
    Introduction.parse_mode a = "HTML" /\
    ~ In "<"%char (Introduction.chars (Introduction.text a)) /\
    ~ In ">"%char (Introduction.chars (Introduction.text a)).
Proof.
  intros m.
  destruct (greeting_has_no_markup m []) as [_ Huser].
  destruct (Huser _ eq_refl) as (a & Hrun & Hmode & Hlt & Hgt & _).
  exists a. auto.
Defined.

(** ** The id of a lookup by name, when validation coerces *)

(** The id returned is not always the id of the record (C9 as
    stated): with a validation of [int] fields that coerces, an answer
    whose [Media] record has the id 7.5, or the text "7", makes the
    lookup by name return a preview with the id 7. *)
Lemma name_lookup_id_not_the_one_of_the_response :
  fst (@title_preview_by_name pydantic_int_coercing
         escape_html_tags_or_none_model
         (always (ok_response
                    (media_body (media_json_with_id (JFloat 7.5%float)))))
         "Berserk" (Some manga) initial_world)
  = Ok (sample_preview 7 (Some "Berserk") None) /\
  getpath (media_body (media_json_with_id (JFloat 7.5%float)))
    ["data"; "Media"; "id"] = Ok (JFloat 7.5%float) /\
  JInt (TitlePreview.id (sample_preview 7 (Some "Berserk") None))
  <> JFloat 7.5%float /\
  PrimFloat.ltb 7%float 7.5%float = true /\
  fst (@title_preview_by_name pydantic_int_coercing
         escape_html_tags_or_none_model
         (always (ok_response (media_body (media_json_with_id (JStr "7")))))
         "Berserk" (Some manga) initial_world)
  = Ok (sample_preview 7 (Some "Berserk") None) /\
  getpath (media_body (media_json_with_id (JStr "7")))
    ["data"; "Media"; "id"] = Ok (JStr "7") /\
  JInt (TitlePreview.id (sample_preview 7 (Some "Berserk") None))
  <> JStr "7".
Proof.
  split; [vm_compute; reflexivity|].
  split; [vm_compute; reflexivity|].
  split; [discriminate|].
  split; [vm_compute; reflexivity|].
  split; [vm_compute; reflexivity|].
  split; [vm_compute; reflexivity|].
  discriminate.
Qed.
